(** * oslo_context.context: the request context and its thread-local registry

    A shallow embedding of [src/oslo_context/context.py] and the properties
    of its construction, export and lookup operations.

    Python values are an inductive type with Python's truthiness; dicts that
    are used as mappings are [gmap string value]; a dict whose iteration
    order is observed (the keyword arguments scanned by
    [get_context_from_function_and_args]) is an association list.
    [RequestContext] instances live in a heap and are named by their
    address, so that "the instance that was published" is told apart from an
    equal-looking one; [_request_store] has one slot per thread. *)

From Stdlib Require Import Ascii String.
From stdpp Require Import base option list strings gmap.

Open Scope string_scope.
#[local] Set Warnings "-register-all".

(** ** Python values, errors and builtins *)

Module Py.

(** Address of a [RequestContext] instance in the heap. *)
Definition ref := nat.

Inductive value : Type :=
| VNone
| VBool (b : bool)
| VInt (z : Z)
| VStr (s : string)
| VList (l : list value)
| VCtx (r : ref).

Inductive exn := TypeError | AttributeError | KeyError | ValueError.

Inductive result (A : Type) : Type :=
| Ok (a : A)
| Raise (e : exn).
Arguments Ok {A} a.
Arguments Raise {A} e.

#[global] Instance result_ret : MRet result := @Ok.
#[global] Instance result_bind : MBind result := λ A B f m,
  match m with Ok a => f a | Raise e => Raise e end.

(** [bool(v)]: [None], [False], [0], [''] and [[]] are false.  A
    [RequestContext] defines neither [__bool__] nor [__len__], so an
    instance is true. *)
Definition truthy (v : value) : bool :=
  match v with
  | VNone => false
  | VBool b => b
  | VInt z => negb (Z.eqb z 0)
  | VStr s => negb (String.eqb s "")
  | VList l => match l with [] => false | _ => true end
  | VCtx _ => true
  end.

(** [a or b] *)
Definition or_ (a b : value) : value := if truthy a then a else b.

(** [isinstance(v, RequestContext)] *)
Definition is_RequestContext (v : value) : bool :=
  match v with VCtx _ => true | _ => false end.

(** [d.get(k, dflt)] *)
Definition get (d : gmap string value) (k : string) (dflt : value) : value :=
  default dflt (d !! k).

(** [d.setdefault(k, v)], for its effect on [d]. *)
Definition setdefault (k : string) (v : value) (d : gmap string value)
  : gmap string value :=
  match d !! k with Some _ => d | None => <[k := v]> d end.

(** [d.update(other)]: the entries of [other] are stored into [d], replacing
    what [d] had under the same key. *)
Definition update (d other : gmap string value) : gmap string value :=
  other ∪ d.

(** A dict display [{k1: v1, ..., kn: vn}]: entries are stored left to
    right, a later one replacing an earlier one with the same key. *)
Definition mkdict (l : list (string * value)) : gmap string value :=
  foldl (λ d kv, <[kv.1 := kv.2]> d) ∅ l.

(** The value a keyword has in a call [f(k1=v1, ..., kn=vn)]. *)
Fixpoint assoc (k : string) (l : list (string * value)) : option value :=
  match l with
  | [] => None
  | (k', v) :: l' => if String.eqb k k' then Some v else assoc k l'
  end.

(** *** Strings

    A string is a [str] whose characters have codes below 256, as the
    native strings of a WSGI environment have; a character is its code.
    Case and whitespace are those of [str] on these characters. *)

(** [c.isupper()]: [A] to [Z], and the capital letters from code 192 to
    222, which leaves out the multiplication sign at 215. *)
Definition is_upper (c : ascii) : bool :=
  let n := nat_of_ascii c in
  (Nat.leb 65 n && Nat.leb n 90) ||
  (Nat.leb 192 n && Nat.leb n 222 && negb (Nat.eqb n 215)).

Definition lower_char (c : ascii) : ascii :=
  if is_upper c then ascii_of_nat (nat_of_ascii c + 32) else c.

(** [s.lower()] *)
Fixpoint lower (s : string) : string :=
  match s with
  | EmptyString => EmptyString
  | String c s' => String (lower_char c) (lower s')
  end.

(** [c.isspace()], the characters that [strip()] removes: the space, the
    controls 9 to 13 ([\t], [\n], [\v], [\f], [\r]), the separators 28 to
    31, the next-line control 133 and the no-break space 160. *)
Definition isspace (c : ascii) : bool :=
  let n := nat_of_ascii c in
  Nat.eqb n 32 ||
  (Nat.leb 9 n && Nat.leb n 13) ||
  (Nat.leb 28 n && Nat.leb n 31) ||
  Nat.eqb n 133 ||
  Nat.eqb n 160.

Fixpoint lstrip (s : string) : string :=
  match s with
  | EmptyString => EmptyString
  | String c s' => if isspace c then lstrip s' else s
  end.

Fixpoint rstrip (s : string) : string :=
  match s with
  | EmptyString => EmptyString
  | String c s' =>
      match rstrip s' with
      | EmptyString => if isspace c then EmptyString else String c EmptyString
      | r => String c r
      end
  end.

(** [s.strip()] *)
Definition strip (s : string) : string := rstrip (lstrip s).

(** [s.split(sep)] for a one-character separator: [n] occurrences of the
    separator give [n + 1] pieces, so [''.split(',')] is [['']]. *)
Fixpoint split (sep : ascii) (s : string) : list string :=
  match s with
  | EmptyString => [EmptyString]
  | String c s' =>
      if Ascii.eqb c sep then EmptyString :: split sep s'
      else match split sep s' with
           | p :: ps => String c p :: ps
           | [] => [String c EmptyString]
           end
  end.

(** Method calls on a value that need not be a string. *)
Definition str_lower (v : value) : result value :=
  match v with VStr s => Ok (VStr (lower s)) | _ => Raise AttributeError end.

Definition str_split (v : value) (sep : ascii) : result (list value) :=
  match v with VStr s => Ok (VStr <$> split sep s) | _ => Raise AttributeError end.

Definition str_strip (v : value) : result value :=
  match v with VStr s => Ok (VStr (strip s)) | _ => Raise AttributeError end.

(** [[f(r) for r in l]] *)
Fixpoint comprehension (f : value → result value) (l : list value)
  : result (list value) :=
  match l with
  | [] => Ok []
  | r :: l' => x ← f r; xs ← comprehension f l'; Ok (x :: xs)
  end.

(** [a == b] where [b] is a string. *)
Definition eq_str (a : value) (b : string) : bool :=
  match a with VStr s => String.eqb s b | _ => false end.

(** [template.format(k1=v1, ...)] for templates made of literal text and plain
    replacement fields [{name}].  [render] is what [format(v, '')] gives. *)
Fixpoint format_from (render : value → string) (kw : list (string * value))
    (field : option string) (template : string) : result string :=
  match template with
  | EmptyString =>
      match field with None => Ok EmptyString | Some _ => Raise ValueError end
  | String c rest =>
      match field with
      | None =>
          if Ascii.eqb c "{" then format_from render kw (Some EmptyString) rest
          else if Ascii.eqb c "}" then Raise ValueError
          else s ← format_from render kw None rest; Ok (String c s)
      | Some name =>
          if Ascii.eqb c "}" then
            match assoc name kw with
            | Some v => s ← format_from render kw None rest; Ok (render v +:+ s)
            | None => Raise KeyError
            end
          else format_from render kw (Some (name +:+ String c EmptyString)) rest
      end
  end.

Definition format (render : value → string) (template : string)
    (kw : list (string * value)) : result string :=
  format_from render kw None template.

End Py.
Import Py.

(** ** The module state *)

(** A thread of the process; [threading.local()] gives each its own
    attributes. *)
Definition thread := nat.

(** The attributes of an instance, as [__init__] sets them. *)
Record RequestContext : Type := {
  auth_token : value;
  user : value;
  user_name : value;
  tenant : value;
  project_name : value;
  domain : value;
  domain_name : value;
  user_domain : value;
  user_domain_name : value;
  project_domain : value;
  project_domain_name : value;
  is_admin : value;
  is_admin_project : value;
  read_only : value;
  show_deleted : value;
  resource_uuid : value;
  roles : value;
  request_id : value
}.

(** [heap]: the instances created so far, by address.
    [_request_store]: the [context] attribute of the thread-local object,
    per thread; a thread that never stored one has no entry.
    [uuid_calls]: how many identifiers were drawn from [uuid.uuid4]. *)
Record world : Type := World {
  heap : list RequestContext;
  _request_store : gmap thread ref;
  uuid_calls : nat
}.

Definition _ENVIRON_HEADERS : list (string * list string) :=
  [ ("auth_token", ["HTTP_X_AUTH_TOKEN"; "HTTP_X_STORAGE_TOKEN"]);
    ("user", ["HTTP_X_USER_ID"; "HTTP_X_USER"]);
    ("tenant", ["HTTP_X_PROJECT_ID"; "HTTP_X_TENANT_ID"; "HTTP_X_TENANT"]);
    ("user_domain", ["HTTP_X_USER_DOMAIN_ID"]);
    ("project_domain", ["HTTP_X_PROJECT_DOMAIN_ID"]);
    ("user_name", ["HTTP_X_USER_NAME"]);
    ("project_name", ["HTTP_X_PROJECT_NAME"; "HTTP_X_TENANT_NAME"]);
    ("user_domain_name", ["HTTP_X_USER_DOMAIN_NAME"]);
    ("project_domain_name", ["HTTP_X_PROJECT_DOMAIN_NAME"]);
    ("request_id", ["openstack.request_id"]) ].

(** The parameters of [RequestContext.__init__] after [self], with their
    defaults, in the order of the signature. *)
Definition init_signature : list (string * value) :=
  [ ("auth_token", VNone); ("user", VNone); ("tenant", VNone);
    ("domain", VNone); ("user_domain", VNone); ("project_domain", VNone);
    ("is_admin", VBool false); ("read_only", VBool false);
    ("show_deleted", VBool false); ("request_id", VNone);
    ("resource_uuid", VNone); ("overwrite", VBool true); ("roles", VNone);
    ("user_name", VNone); ("project_name", VNone); ("domain_name", VNone);
    ("user_domain_name", VNone); ("project_domain_name", VNone);
    ("is_admin_project", VBool true) ].

(** The arguments of one call of [__init__], bound to its parameters. *)
Record init_args : Type := {
  arg_auth_token : value;
  arg_user : value;
  arg_tenant : value;
  arg_domain : value;
  arg_user_domain : value;
  arg_project_domain : value;
  arg_is_admin : value;
  arg_read_only : value;
  arg_show_deleted : value;
  arg_request_id : value;
  arg_resource_uuid : value;
  arg_overwrite : value;
  arg_roles : value;
  arg_user_name : value;
  arg_project_name : value;
  arg_domain_name : value;
  arg_user_domain_name : value;
  arg_project_domain_name : value;
  arg_is_admin_project : value
}.

(** The default of a parameter of [__init__]. *)
Definition init_default (k : string) : value :=
  default VNone (assoc k init_signature).

(** Binding the keywords of a call [cls(k1=v1, ..., kn=vn)]: a parameter that
    is not passed takes its default. *)
Definition bound_arguments (kwargs : gmap string value) : init_args :=
  let arg k := get kwargs k (init_default k) in
  {| arg_auth_token := arg "auth_token";
     arg_user := arg "user";
     arg_tenant := arg "tenant";
     arg_domain := arg "domain";
     arg_user_domain := arg "user_domain";
     arg_project_domain := arg "project_domain";
     arg_is_admin := arg "is_admin";
     arg_read_only := arg "read_only";
     arg_show_deleted := arg "show_deleted";
     arg_request_id := arg "request_id";
     arg_resource_uuid := arg "resource_uuid";
     arg_overwrite := arg "overwrite";
     arg_roles := arg "roles";
     arg_user_name := arg "user_name";
     arg_project_name := arg "project_name";
     arg_domain_name := arg "domain_name";
     arg_user_domain_name := arg "user_domain_name";
     arg_project_domain_name := arg "project_domain_name";
     arg_is_admin_project := arg "is_admin_project" |}.

(** The keywords of a call are all parameters of [__init__]. *)
Definition valid_keywords (kwargs : gmap string value) : Prop :=
  map_Forall (λ k _, k ∈ init_signature.*1) kwargs.

(** A keyword that is no parameter raises [TypeError]. *)
Definition bind_arguments (kwargs : gmap string value) : result init_args :=
  if decide (valid_keywords kwargs) then Ok (bound_arguments kwargs)
  else Raise TypeError.

(** ** The operations of the module *)

Section Context.

(** Two things are Python's own and are taken as given: [py_str v], the
    text [str(v)] of a value that is not a string, and [uuid4 n], the text
    of the [n]-th identifier that [uuid.uuid4()] returns in this process. *)
Variable py_str : value → string.
Variable uuid4 : nat → string.

(** How [str.format] renders an argument in a field without format spec. *)
Definition format_value (v : value) : string :=
  match v with VStr s => s | _ => py_str v end.

Definition generate_request_id (w : world) : value * world :=
  (VStr ("req-" +:+ uuid4 (uuid_calls w)),
   {| heap := heap w;
      _request_store := _request_store w;
      uuid_calls := S (uuid_calls w) |}).

(** [getattr(_request_store, 'context', None)] in thread [t]. *)
Definition get_current (t : thread) (w : world) : value :=
  match _request_store w !! t with Some r => VCtx r | None => VNone end.

(** [_request_store.context = self] in thread [t]. *)
Definition update_store (self : ref) (t : thread) (w : world) : world :=
  {| heap := heap w;
     _request_store := <[t := self]> (_request_store w);
     uuid_calls := uuid_calls w |}.

(** The assignments [self.x = x] of [__init__]; [request_id] is the
    argument or the generated identifier. *)
Definition set_attributes (a : init_args) (request_id : value)
  : RequestContext :=
  {| auth_token := arg_auth_token a;
     user := arg_user a;
     user_name := arg_user_name a;
     tenant := arg_tenant a;
     project_name := arg_project_name a;
     domain := arg_domain a;
     domain_name := arg_domain_name a;
     user_domain := arg_user_domain a;
     user_domain_name := arg_user_domain_name a;
     project_domain := arg_project_domain a;
     project_domain_name := arg_project_domain_name a;
     is_admin := arg_is_admin a;
     is_admin_project := arg_is_admin_project a;
     read_only := arg_read_only a;
     show_deleted := arg_show_deleted a;
     resource_uuid := arg_resource_uuid a;
     roles := or_ (arg_roles a) (VList []);
     request_id := request_id |}.

(** [RequestContext.__init__], run in thread [t]: the new instance gets the
    next free address.  The decorator [positional(enforcement=WARN)] logs a
    warning when arguments are passed by position and changes nothing else. *)
Definition RequestContext_init (a : init_args) (t : thread) (w : world)
  : ref * world :=
  let '(request_id, w) :=
    if negb (truthy (arg_request_id a)) then generate_request_id w
    else (arg_request_id a, w) in
  let self := length (heap w) in
  let w :=
    {| heap := heap w ++ [set_attributes a request_id];
       _request_store := _request_store w;
       uuid_calls := uuid_calls w |} in
  let w :=
    if truthy (arg_overwrite a) || negb (truthy (get_current t w))
    then update_store self t w else w in
  (self, w).

(** [cls(k1=v1, ..., kn=vn)] *)
Definition RequestContext_call (kwargs : gmap string value) (t : thread)
    (w : world) : result (ref * world) :=
  a ← bind_arguments kwargs; Ok (RequestContext_init a t w).

Definition user_idt_format : string :=
  "{user} {tenant} {domain} {user_domain} {p_domain}".

Definition to_dict (self : RequestContext) : result (gmap string value) :=
  user_idt ← format format_value user_idt_format
                [ ("user", or_ (user self) (VStr "-"));
                  ("tenant", or_ (tenant self) (VStr "-"));
                  ("domain", or_ (domain self) (VStr "-"));
                  ("user_domain", or_ (user_domain self) (VStr "-"));
                  ("p_domain", or_ (project_domain self) (VStr "-")) ];
  Ok (mkdict [ ("user", user self);
               ("tenant", tenant self);
               ("domain", domain self);
               ("user_domain", user_domain self);
               ("project_domain", project_domain self);
               ("is_admin", is_admin self);
               ("read_only", read_only self);
               ("show_deleted", show_deleted self);
               ("auth_token", auth_token self);
               ("request_id", request_id self);
               ("resource_uuid", resource_uuid self);
               ("roles", roles self);
               ("user_identity", VStr user_idt);
               ("is_admin_project", is_admin_project self) ]).

(** [self.to_dict()] is looked up on the class of the instance, which may be
    a subclass that overrides it: [self_to_dict] is the method found. *)
Definition get_logging_values
    (self_to_dict : RequestContext → result (gmap string value))
    (self : RequestContext) : result (gmap string value) :=
  let values := mkdict [ ("user_name", user_name self);
                         ("project_name", project_name self);
                         ("domain_name", domain_name self);
                         ("user_domain_name", user_domain_name self);
                         ("project_domain_name", project_domain_name self) ] in
  d ← self_to_dict self;
  Ok (update values d).

Definition from_dict (values kwargs : gmap string value) (t : thread)
    (w : world) : result (ref * world) :=
  let kwargs := setdefault "auth_token" (get values "auth_token" VNone) kwargs in
  let kwargs := setdefault "user" (get values "user" VNone) kwargs in
  let kwargs := setdefault "tenant" (get values "tenant" VNone) kwargs in
  let kwargs := setdefault "domain" (get values "domain" VNone) kwargs in
  let kwargs := setdefault "user_domain" (get values "user_domain" VNone) kwargs in
  let kwargs :=
    setdefault "project_domain" (get values "project_domain" VNone) kwargs in
  let kwargs := setdefault "is_admin" (get values "is_admin" (VBool false)) kwargs in
  let kwargs := setdefault "read_only" (get values "read_only" (VBool false)) kwargs in
  let kwargs :=
    setdefault "show_deleted" (get values "show_deleted" (VBool false)) kwargs in
  let kwargs := setdefault "request_id" (get values "request_id" VNone) kwargs in
  let kwargs := setdefault "resource_uuid" (get values "resource_uuid" VNone) kwargs in
  let kwargs := setdefault "roles" (get values "roles" VNone) kwargs in
  let kwargs := setdefault "user_name" (get values "user_name" VNone) kwargs in
  let kwargs := setdefault "project_name" (get values "project_name" VNone) kwargs in
  let kwargs := setdefault "domain_name" (get values "domain_name" VNone) kwargs in
  let kwargs :=
    setdefault "user_domain_name" (get values "user_domain_name" VNone) kwargs in
  let kwargs :=
    setdefault "project_domain_name"
               (get values "project_domain_name" VNone) kwargs in
  let kwargs :=
    setdefault "is_admin_project"
               (get values "is_admin_project" (VBool true)) kwargs in
  RequestContext_call kwargs t w.

(** The inner loop of [from_environ]: the first [v] of [v_list] that is in
    [environ] gives [kwargs[k]]. *)
Fixpoint first_header (k : string) (v_list : list string)
    (environ kwargs : gmap string value) : gmap string value :=
  match v_list with
  | [] => kwargs
  | v :: v_list' =>
      match environ !! v with
      | Some x => <[k := x]> kwargs
      | None => first_header k v_list' environ kwargs
      end
  end.

(** The outer loop, over the entries of a table of headers. *)
Definition add_headers (headers : list (string * list string))
    (environ kwargs : gmap string value) : gmap string value :=
  foldl (λ kwargs '(k, v_list),
           if decide (is_Some (kwargs !! k)) then kwargs
           else first_header k v_list environ kwargs)
        kwargs headers.

(** The block [if 'roles' not in kwargs: ...]. *)
Definition add_roles (environ kwargs : gmap string value)
  : result (gmap string value) :=
  if decide (is_Some (kwargs !! "roles")) then Ok kwargs
  else
    let roles := get environ "HTTP_X_ROLES" (get environ "HTTP_X_ROLE" VNone) in
    roles ← (if truthy roles
             then pieces ← str_split roles ","; comprehension str_strip pieces
             else Ok []);
    Ok (<["roles" := VList roles]> kwargs).

(** The block [if 'is_admin_project' not in kwargs: ...]. *)
Definition add_is_admin_project (environ kwargs : gmap string value)
  : result (gmap string value) :=
  if decide (is_Some (kwargs !! "is_admin_project")) then Ok kwargs
  else
    let is_admin_proj_str :=
      get environ "HTTP_X_IS_ADMIN_PROJECT" (VStr "true") in
    lowered ← str_lower is_admin_proj_str;
    Ok (<["is_admin_project" := VBool (eq_str lowered "true")]> kwargs).

Definition from_environ (environ kwargs : gmap string value) (t : thread)
    (w : world) : result (ref * world) :=
  let kwargs := add_headers _ENVIRON_HEADERS environ kwargs in
  kwargs ← add_roles environ kwargs;
  kwargs ← add_is_admin_project environ kwargs;
  RequestContext_call kwargs t w.

(** [RequestContext(None, tenant=None, is_admin=True,
    show_deleted=show_deleted, overwrite=False)]: the positional argument is
    [auth_token]; the other parameters take their defaults. *)
Definition get_admin_context (show_deleted : value) (t : thread) (w : world)
  : ref * world :=
  RequestContext_init
    {| arg_auth_token := VNone;
       arg_user := VNone;
       arg_tenant := VNone;
       arg_domain := VNone;
       arg_user_domain := VNone;
       arg_project_domain := VNone;
       arg_is_admin := VBool true;
       arg_read_only := VBool false;
       arg_show_deleted := show_deleted;
       arg_request_id := VNone;
       arg_resource_uuid := VNone;
       arg_overwrite := VBool false;
       arg_roles := VNone;
       arg_user_name := VNone;
       arg_project_name := VNone;
       arg_domain_name := VNone;
       arg_user_domain_name := VNone;
       arg_project_domain_name := VNone;
       arg_is_admin_project := VBool true |} t w.

(** The loop of [get_context_from_function_and_args] over the values it is
    given. *)
Fixpoint first_context (it : list value) : value :=
  match it with
  | [] => VNone
  | arg :: rest => if is_RequestContext arg then arg else first_context rest
  end.

(** [kwargs] is the dict in its iteration order;
    [itertools.chain(kwargs.values(), args)] yields its values, then [args]. *)
Definition get_context_from_function_and_args (function : value)
    (args : list value) (kwargs : list (string * value)) : value :=
  first_context (kwargs.*2 ++ args).

Definition to_policy_values (self : RequestContext) : gmap string value :=
  mkdict [ ("user_id", user self);
           ("user_domain_id", user_domain self);
           ("project_id", tenant self);
           ("project_domain_id", project_domain self);
           ("roles", roles self);
           ("is_admin_project", is_admin_project self) ].

(** [context.is_admin] is read from the instance at the address; the result
    is [None] only for an address that names no instance, which a value
    held by the program never is. *)
Definition is_user_context (context : value) (w : world) : option bool :=
  if negb (truthy context) || negb (is_RequestContext context) then Some false
  else
    match context with
    | VCtx r =>
        self ← heap w !! r;
        if truthy (is_admin self) then Some false else Some true
    | _ => Some false
    end.

(** ** Notions used in the statements *)

(** The keys that [get_logging_values] adds, and the attribute each holds. *)
Definition display_name_keys : list string :=
  ["user_name"; "project_name"; "domain_name"; "user_domain_name";
   "project_domain_name"].

Definition display_name (self : RequestContext) (k : string) : option value :=
  assoc k [ ("user_name", user_name self);
            ("project_name", project_name self);
            ("domain_name", domain_name self);
            ("user_domain_name", user_domain_name self);
            ("project_domain_name", project_domain_name self) ].

(** The precedence on coinciding keys with the display names winning: the
    reading under which [get_logging_values] is checked against a class
    whose [to_dict] is [self_to_dict]. *)
Definition display_names_take_precedence
    (self_to_dict : RequestContext → result (gmap string value))
    (self : RequestContext) : Prop :=
  ∀ d m k v,
    self_to_dict self = Ok d →
    get_logging_values self_to_dict self = Ok m →
    display_name self k = Some v → k ∈ dom d →
    m !! k = Some v.

(** [to_dict] of a subclass that exports the user id under the old key
    [user_name] as well:
    [d = super().to_dict(); d['user_name'] = self.user; return d]. *)
Definition to_dict_legacy_user_name (self : RequestContext)
  : result (gmap string value) :=
  d ← to_dict self; Ok (<["user_name" := user self]> d).

(** The five identity attributes in the order of [user_idt_format], and the
    keys [to_dict] exports them under. *)
Definition identity_fields (self : RequestContext) : list value :=
  [user self; tenant self; domain self; user_domain self; project_domain self].

Definition identity_keys : list string :=
  ["user"; "tenant"; "domain"; "user_domain"; "project_domain"].

(** One component of the identity string: the attribute as text, or the
    placeholder when it is [None] or otherwise false. *)
Definition identity_part (v : value) : string :=
  if truthy v then format_value v else "-".

(** No instance is stored in a slot before it exists. *)
Definition store_allocated (w : world) : Prop :=
  ∀ t r, _request_store w !! t = Some r → r < length (heap w).

(** A header that is present holds a string, as WSGI has it for the
    [HTTP_] variables. *)
Definition str_or_absent (o : option value) : Prop :=
  match o with None | Some (VStr _) => True | Some _ => False end.

Definition string_headers (environ : gmap string value) : Prop :=
  str_or_absent (environ !! "HTTP_X_ROLES") ∧
  str_or_absent (environ !! "HTTP_X_ROLE") ∧
  str_or_absent (environ !! "HTTP_X_IS_ADMIN_PROJECT").

(** The first of the keys [v_list] that [environ] has, as a value. *)
Fixpoint first_present (environ : gmap string value) (v_list : list string)
  : option value :=
  match v_list with
  | [] => None
  | v :: v_list' =>
      match environ !! v with
      | Some x => Some x
      | None => first_present environ v_list'
      end
  end.

(** The header list of a field in a table of headers. *)
Fixpoint headers_of (k : string) (headers : list (string * list string))
  : option (list string) :=
  match headers with
  | [] => None
  | (k', v_list) :: headers' =>
      if String.eqb k k' then Some v_list else headers_of k headers'
  end.

(** What the header table gives for a field. *)
Definition header_value (environ : gmap string value) (k : string)
  : option value :=
  match headers_of k _ENVIRON_HEADERS with
  | Some v_list => first_present environ v_list
  | None => None
  end.

(** The roles header that is read: [HTTP_X_ROLES], or [HTTP_X_ROLE] when
    that one is absent. *)
Definition roles_header (environ : gmap string value) : option value :=
  match environ !! "HTTP_X_ROLES" with
  | Some v => Some v
  | None => environ !! "HTTP_X_ROLE"
  end.

(** The roles [from_environ] gives: the pieces of a header that is not
    empty, and no roles otherwise. *)
Definition environ_roles (environ : gmap string value) : value :=
  match roles_header environ with
  | Some (VStr s) =>
      if String.eqb s "" then VList []
      else VList (VStr <$> (strip <$> split "," s))
  | _ => VList []
  end.

(** The flag [from_environ] gives. *)
Definition environ_is_admin_project (environ : gmap string value) : value :=
  match environ !! "HTTP_X_IS_ADMIN_PROJECT" with
  | Some (VStr s) => VBool (String.eqb (lower s) "true")
  | _ => VBool true
  end.

(** The second argument of each [values.get] in [from_dict]. *)
Definition from_dict_defaults : list (string * value) :=
  [ ("auth_token", VNone); ("user", VNone); ("tenant", VNone);
    ("domain", VNone); ("user_domain", VNone); ("project_domain", VNone);
    ("is_admin", VBool false); ("read_only", VBool false);
    ("show_deleted", VBool false); ("request_id", VNone);
    ("resource_uuid", VNone); ("roles", VNone); ("user_name", VNone);
    ("project_name", VNone); ("domain_name", VNone);
    ("user_domain_name", VNone); ("project_domain_name", VNone);
    ("is_admin_project", VBool true) ].

(** The [request_id] attribute a construction in world [w] gives. *)
Definition request_id_of (a : init_args) (w : world) : value :=
  if truthy (arg_request_id a) then arg_request_id a
  else VStr ("req-" +:+ uuid4 (uuid_calls w)).

(** The call [RequestContext()], every parameter at its default. *)
Definition no_arguments : init_args := bound_arguments ∅.

(** [getattr(self, k)] for the attributes that [__init__] sets. *)
Definition attribute (k : string) (self : RequestContext) : option value :=
  assoc k [ ("auth_token", auth_token self);
            ("user", user self);
            ("user_name", user_name self);
            ("tenant", tenant self);
            ("project_name", project_name self);
            ("domain", domain self);
            ("domain_name", domain_name self);
            ("user_domain", user_domain self);
            ("user_domain_name", user_domain_name self);
            ("project_domain", project_domain self);
            ("project_domain_name", project_domain_name self);
            ("is_admin", is_admin self);
            ("is_admin_project", is_admin_project self);
            ("read_only", read_only self);
            ("show_deleted", show_deleted self);
            ("resource_uuid", resource_uuid self);
            ("roles", roles self);
            ("request_id", request_id self) ].

(** The parameters that [__init__] stores as they are, under their own
    name: all but [roles], [request_id] and [overwrite]. *)
Definition copied_parameters : list string :=
  ["auth_token"; "user"; "tenant"; "domain"; "user_domain"; "project_domain";
   "is_admin"; "read_only"; "show_deleted"; "resource_uuid"; "user_name";
   "project_name"; "domain_name"; "user_domain_name"; "project_domain_name";
   "is_admin_project"].

(** How often a character occurs in a string, and whether a string begins
    or ends with whitespace. *)
Fixpoint count_char (c : ascii) (s : string) : nat :=
  match s with
  | EmptyString => 0
  | String c' s' => (if Ascii.eqb c' c then 1 else 0) + count_char c s'
  end.

Definition begins_with_space (s : string) : bool :=
  match s with EmptyString => false | String c _ => isspace c end.

Fixpoint ends_with_space (s : string) : bool :=
  match s with
  | EmptyString => false
  | String c EmptyString => isspace c
  | String _ s' => ends_with_space s'
  end.

(** The keys under which [from_environ] looks into the environment. *)
Definition environ_keys : list string :=
  (_ENVIRON_HEADERS ≫= snd) ++
  ["HTTP_X_ROLES"; "HTTP_X_ROLE"; "HTTP_X_IS_ADMIN_PROJECT"].

(** *** Concrete instances

    A rendering that is right on [None] and the booleans, a supply of
    identifiers, the state of a process that has built no context yet, and
    the inputs the statements are tried on. *)

Definition str_example (v : value) : string :=
  match v with
  | VNone => "None"
  | VBool true => "True"
  | VBool false => "False"
  | _ => "<object>"
  end.

Definition uuid_example (n : nat) : string :=
  "7f9c24e8-3b12-4fa1-9c5d-" +:+ String.concat "" (replicate n "0") +:+ "1".

Definition empty_world : world := World [] ∅ 0.

(** A context of user [u-123], whose display name is [alice]. *)
Definition alice : RequestContext :=
  {| auth_token := VNone;
     user := VStr "u-123";
     user_name := VStr "alice";
     tenant := VNone;
     project_name := VNone;
     domain := VNone;
     domain_name := VNone;
     user_domain := VNone;
     user_domain_name := VNone;
     project_domain := VNone;
     project_domain_name := VNone;
     is_admin := VBool false;
     is_admin_project := VBool true;
     read_only := VBool false;
     show_deleted := VBool false;
     resource_uuid := VNone;
     roles := VList [];
     request_id := VStr "req-7f9c24e8-3b12-4fa1-9c5d-1" |}.

(** The same context with an empty string for the tenant. *)
Definition alice_blank_tenant : RequestContext :=
  {| auth_token := VNone;
     user := VStr "u-123";
     user_name := VStr "alice";
     tenant := VStr "";
     project_name := VNone;
     domain := VNone;
     domain_name := VNone;
     user_domain := VNone;
     user_domain_name := VNone;
     project_domain := VNone;
     project_domain_name := VNone;
     is_admin := VBool false;
     is_admin_project := VBool true;
     read_only := VBool false;
     show_deleted := VBool false;
     resource_uuid := VNone;
     roles := VList [];
     request_id := VStr "req-7f9c24e8-3b12-4fa1-9c5d-1" |}.

(** Request environments: a legacy tenant header only; both the project and
    the legacy tenant header; a roles header; an empty roles header; a flag
    that is not [true]. *)
Definition environ_legacy_tenant : gmap string value :=
  mkdict [("HTTP_X_TENANT", VStr "t-legacy")].

Definition environ_project_and_tenant : gmap string value :=
  mkdict [("HTTP_X_PROJECT_ID", VStr "p-1"); ("HTTP_X_TENANT", VStr "t-legacy")].

Definition environ_three_roles : gmap string value :=
  mkdict [("HTTP_X_ROLES", VStr "admin, member ,ops")].

Definition environ_empty_roles : gmap string value :=
  mkdict [("HTTP_X_ROLES", VStr "")].

Definition environ_flag_yes : gmap string value :=
  mkdict [("HTTP_X_IS_ADMIN_PROJECT", VStr "yes")].

(** The call [RequestContext(request_id='')]. *)
Definition empty_request_id : init_args :=
  bound_arguments (mkdict [("request_id", VStr "")]).

(** Inputs for [from_dict]: a dict of values, an override, a keyword that
    is no parameter, and a dict without any of the keys that are read. *)
Definition values_admin : gmap string value :=
  mkdict [("user", VStr "u-123"); ("is_admin", VBool true)].

Definition kwargs_user : gmap string value := mkdict [("user", VStr "u-456")].

Definition kwargs_colour : gmap string value :=
  mkdict [("colour", VStr "red")].

Definition values_colour : gmap string value :=
  mkdict [("colour", VStr "red")].

(** More request environments: a legacy project name; a request id; roles
    that are a list already; a flag that is [None]; roles with an empty piece
    and a comma at the end; roles beside a key that is not read. *)
Definition environ_tenant_name : gmap string value :=
  mkdict [("HTTP_X_TENANT_NAME", VStr "demo")].

Definition environ_request_id : gmap string value :=
  mkdict [("openstack.request_id", VStr "req-abc")].

Definition environ_roles_list : gmap string value :=
  mkdict [("HTTP_X_ROLES", VList [VStr "admin"])].


Definition environ_trailing_comma : gmap string value :=
  mkdict [("HTTP_X_ROLES", VStr "admin, ,ops,")].

Definition environ_with_scheme : gmap string value :=
  mkdict [("HTTP_X_ROLES", VStr "admin, member ,ops");
          ("wsgi.url_scheme", VStr "https")].

(** Roles with the unit separator 31, a next-line control 133 and a
    no-break space 160 around them. *)
Definition environ_roles_separators : gmap string value :=
  mkdict [("HTTP_X_ROLES",
           VStr ("admin" +:+ String "031" ("," +:+ String "133" ("ops" +:+
                 String "160" ""))))].

(** Overrides for both parsed fields. *)
Definition kwargs_roles_flag : gmap string value :=
  mkdict [("roles", VList [VStr "admin"]); ("is_admin_project", VBool false)].

(** ** Dictionaries *)

Lemma assoc_app k l1 l2 :
  assoc k (l1 ++ l2) =
  match assoc k l1 with Some v => Some v | None => assoc k l2 end.
Proof.
  induction l1 as [|[k' v] l1 IH]; simpl; [done|].
  by destruct (String.eqb k k').
Qed.

Lemma lookup_foldl_insert (l : list (string * value)) (d : gmap string value) k :
  foldl (λ d kv, <[kv.1 := kv.2]> d) d l !! k =
  match assoc k (rev l) with Some v => Some v | None => d !! k end.
Proof.
  revert d. induction l as [|[k' v] l IH]; intros d; simpl; [done|].
  rewrite IH, assoc_app. destruct (assoc k (rev l)); [done|]. simpl.
  destruct (String.eqb_spec k k') as [->|Hne].
  - by rewrite lookup_insert_eq.
  - by rewrite lookup_insert_ne.
Qed.

(** Reading a dict display: the last entry under the key. *)
Lemma lookup_mkdict l k : mkdict l !! k = assoc k (rev l).
Proof.
  unfold mkdict. rewrite lookup_foldl_insert, lookup_empty.
  by destruct (assoc k (rev l)).
Qed.

Lemma assoc_is_Some k l : is_Some (assoc k l) ↔ k ∈ l.*1.
Proof.
  induction l as [|[k' v] l IH]; simpl.
  - split; [by intros [? ?]|by intros ?%elem_of_nil].
  - rewrite elem_of_cons. destruct (String.eqb_spec k k') as [->|Hne].
    + split; [by left|by eauto].
    + rewrite IH. split; [by right|]. by intros [?|?].
Qed.

Lemma dom_mkdict l : dom (mkdict l) = list_to_set l.*1.
Proof.
  apply set_eq. intros k.
  rewrite elem_of_dom, lookup_mkdict, assoc_is_Some, elem_of_list_to_set.
  rewrite !list_elem_of_fmap.
  split; intros (kv & Hk & Hin); exists kv; (split; [done|]);
    apply list_elem_of_In; apply list_elem_of_In in Hin.
  - by apply in_rev.
  - by apply in_rev in Hin.
Qed.

Lemma lookup_setdefault k v (d : gmap string value) j :
  setdefault k v d !! j =
  match d !! j with
  | Some x => Some x
  | None => if String.eqb j k then Some v else None
  end.
Proof.
  unfold setdefault. destruct (String.eqb_spec j k) as [->|Hne].
  - destruct (d !! k) eqn:E; [by rewrite E|]. by rewrite lookup_insert_eq.
  - destruct (d !! k) eqn:E; [by destruct (d !! j)|].
    rewrite lookup_insert_ne by done. by destruct (d !! j).
Qed.

Lemma lookup_update (d other : gmap string value) k :
  update d other !! k =
  match other !! k with Some v => Some v | None => d !! k end.
Proof.
  unfold update. rewrite lookup_union.
  destruct (other !! k), (d !! k); done.
Qed.

(** ** Construction *)

Lemma RequestContext_init_address a t w :
  (RequestContext_init a t w).1 = length (heap w).
Proof.
  unfold RequestContext_init, generate_request_id.
  destruct (truthy (arg_request_id a)); reflexivity.
Qed.

Lemma RequestContext_init_heap a t w :
  heap (RequestContext_init a t w).2 =
  (heap w ++ [set_attributes a (request_id_of a w)])%list.
Proof.
  unfold RequestContext_init, generate_request_id, request_id_of, update_store.
  destruct (truthy (arg_request_id a)); simpl;
    match goal with |- context [if ?b then _ else _] => destruct b end;
    reflexivity.
Qed.

Lemma RequestContext_init_store a t w :
  _request_store (RequestContext_init a t w).2 =
  if truthy (arg_overwrite a) || negb (truthy (get_current t w))
  then <[t := length (heap w)]> (_request_store w)
  else _request_store w.
Proof.
  unfold RequestContext_init, generate_request_id, update_store, get_current.
  destruct (truthy (arg_request_id a)); simpl;
    match goal with |- context [if ?b then _ else _] => destruct b end;
    reflexivity.
Qed.

(** The new instance is in the heap, at the address returned. *)
Lemma RequestContext_init_lookup a t w :
  heap (RequestContext_init a t w).2 !! (RequestContext_init a t w).1 =
  Some (set_attributes a (request_id_of a w)).
Proof.
  rewrite RequestContext_init_address, RequestContext_init_heap.
  rewrite lookup_app_r by lia. by rewrite Nat.sub_diag.
Qed.

(** ** The exported mappings *)

Lemma append_empty_r (s : string) : s +:+ "" = s.
Proof.
  induction s as [|c s IH]; [done|].
  change (String c (s +:+ "") = String c s). by rewrite IH.
Qed.

Lemma format_value_or_placeholder v :
  format_value (or_ v (VStr "-")) = identity_part v.
Proof. unfold or_, identity_part. by destruct (truthy v). Qed.

(** The template applied to five arguments. *)
Lemma format_user_idt a b c d e :
  format format_value user_idt_format
    [("user", a); ("tenant", b); ("domain", c); ("user_domain", d);
     ("p_domain", e)] =
  Ok (format_value a +:+ " " +:+ format_value b +:+ " " +:+
      format_value c +:+ " " +:+ format_value d +:+ " " +:+ format_value e).
Proof.
  transitivity
    (Ok (A := string)
        (format_value a +:+ " " +:+ format_value b +:+ " " +:+
         format_value c +:+ " " +:+ format_value d +:+ " " +:+
         (format_value e +:+ ""))).
  - reflexivity.
  - by rewrite append_empty_r.
Qed.

(** [to_dict] never raises, and its result is this dict. *)
Lemma to_dict_eq self :
  to_dict self =
  Ok (mkdict [ ("user", user self);
               ("tenant", tenant self);
               ("domain", domain self);
               ("user_domain", user_domain self);
               ("project_domain", project_domain self);
               ("is_admin", is_admin self);
               ("read_only", read_only self);
               ("show_deleted", show_deleted self);
               ("auth_token", auth_token self);
               ("request_id", request_id self);
               ("resource_uuid", resource_uuid self);
               ("roles", roles self);
               ("user_identity",
                VStr (String.concat " " (identity_part <$> identity_fields self)));
               ("is_admin_project", is_admin_project self) ]).
Proof.
  unfold to_dict. rewrite format_user_idt, !format_value_or_placeholder.
  reflexivity.
Qed.

(** C8: the [user_identity] entry of [to_dict()] is the five attributes
    user, tenant, domain, user_domain, project_domain in that order, each as
    text or as ["-"] when it is absent, joined by single spaces; for a context
    built by [RequestContext()] it is ["- - - - -"]. *)
Theorem to_dict_user_identity :
  (∀ self, ∃ d,
     to_dict self = Ok d ∧
     d !! "user_identity" =
       Some (VStr (identity_part (user self) +:+ " " +:+
                   identity_part (tenant self) +:+ " " +:+
                   identity_part (domain self) +:+ " " +:+
                   identity_part (user_domain self) +:+ " " +:+
                   identity_part (project_domain self)))) ∧
  identity_part VNone = "-" ∧
  (∀ s, s ≠ "" → identity_part (VStr s) = s) ∧
  (∀ t w, ∃ ctx d,
     heap (RequestContext_init no_arguments t w).2
       !! (RequestContext_init no_arguments t w).1 = Some ctx ∧
     to_dict ctx = Ok d ∧
     d !! "user_identity" = Some (VStr "- - - - -")).
Proof.
  split; [|split; [done|split]].
  - intros self. eexists. split; [apply to_dict_eq|].
    rewrite lookup_mkdict. reflexivity.
  - intros s Hs. unfold identity_part. simpl.
    destruct (String.eqb_spec s ""); done.
  - intros t w. eexists _, _.
    split; [apply RequestContext_init_lookup|split; [apply to_dict_eq|]].
    rewrite lookup_mkdict. reflexivity.
Qed.

(** C10: when one of user, tenant, domain, user_domain, project_domain is
    the empty string, its place in [user_identity] shows ["-"], as it does for
    [None], and the key of the attribute in [to_dict()] still holds the empty
    string. *)
Theorem to_dict_empty_string_identity self i :
  identity_fields self !! i = Some (VStr "") →
  ∃ d k,
    to_dict self = Ok d ∧
    d !! "user_identity" =
      Some (VStr (String.concat " " (identity_part <$> identity_fields self))) ∧
    (identity_part <$> identity_fields self) !! i = Some "-" ∧
    identity_part (VStr "") = identity_part VNone ∧
    identity_keys !! i = Some k ∧
    d !! k = Some (VStr "").
Proof.
  intros Hi. rewrite to_dict_eq. unfold identity_fields in *.
  do 5 (destruct i as [|i];
        [simplify_eq/=; eexists _, _;
         split_and!; [reflexivity|by rewrite lookup_mkdict| |done|reflexivity|];
         [by rewrite Hi|rewrite lookup_mkdict; simpl; by rewrite Hi]|]).
  done.
Qed.

Lemma lookup_display_names self k :
  mkdict [ ("user_name", user_name self);
           ("project_name", project_name self);
           ("domain_name", domain_name self);
           ("user_domain_name", user_domain_name self);
           ("project_domain_name", project_domain_name self) ] !! k =
  display_name self k.
Proof.
  rewrite lookup_mkdict. unfold display_name. simpl.
  repeat match goal with
         | |- context [String.eqb k ?x] =>
             destruct (String.eqb_spec k x) as [->|?]; [reflexivity|]
         end.
  reflexivity.
Qed.

(** C1, amended: [get_logging_values()] returns a mapping whose keys are those
    of [to_dict()] and the five display-name keys; a key of [to_dict()] holds
    the value [to_dict()] gave it, also when it is a display-name key, and
    every other display-name key holds the display name. *)
Theorem get_logging_values_update self_to_dict self d :
  self_to_dict self = Ok d →
  ∃ m,
    get_logging_values self_to_dict self = Ok m ∧
    dom m = dom d ∪ list_to_set display_name_keys ∧
    (∀ k v, d !! k = Some v → m !! k = Some v) ∧
    (∀ k, d !! k = None → m !! k = display_name self k).
Proof.
  intros Hd. unfold get_logging_values. rewrite Hd. eexists.
  split; [reflexivity|]. split_and!.
  - unfold update. by rewrite dom_union_L, dom_mkdict.
  - intros k v Hk. by rewrite lookup_update, Hk.
  - intros k Hk. by rewrite lookup_update, Hk, lookup_display_names.
Qed.

Lemma to_dict_no_display_name self d k :
  to_dict self = Ok d → k ∈ display_name_keys → d !! k = None.
Proof.
  rewrite to_dict_eq. intros [= <-] Hk. rewrite lookup_mkdict.
  unfold display_name_keys in Hk.
  repeat (apply elem_of_cons in Hk as [->|Hk]; [reflexivity|]).
  by apply elem_of_nil in Hk.
Qed.

(** For the class itself no key of [to_dict()] is a display-name key, so the
    five display names are all in the result. *)
Lemma get_logging_values_base self :
  ∃ d m,
    to_dict self = Ok d ∧
    get_logging_values to_dict self = Ok m ∧
    (∀ k, k ∈ display_name_keys → d !! k = None ∧ m !! k = display_name self k).
Proof.
  unfold get_logging_values. rewrite to_dict_eq. eexists _, _.
  split; [reflexivity|]. split; [reflexivity|]. intros k Hk.
  assert (Hd := to_dict_no_display_name self _ k (to_dict_eq self) Hk).
  split; [done|]. by rewrite lookup_update, Hd, lookup_display_names.
Qed.

(** ** Finding a context among the arguments of a call *)

Lemma first_context_scan it :
  (∃ pre v post,
     it = (pre ++ v :: post)%list ∧
     Forall (λ x, is_RequestContext x = false) pre ∧
     is_RequestContext v = true ∧
     first_context it = v) ∨
  (Forall (λ x, is_RequestContext x = false) it ∧ first_context it = VNone).
Proof.
  induction it as [|x it IH]; simpl.
  - right. by split.
  - destruct (is_RequestContext x) eqn:Hx.
    + left. exists [], x, it. by repeat split.
    + destruct IH as [(pre & v & post & -> & Hpre & Hv & Hf)|[Hall Hf]].
      * left. exists (x :: pre), v, post. repeat split; [|done..].
        by constructor.
      * right. split; [by constructor|done].
Qed.

(** C9: [get_context_from_function_and_args] scans the keyword values and
    then the positional values, in order, and returns the first one that is
    a [RequestContext] instance, or [None] when none is. *)
Theorem get_context_first_instance function args kwargs :
  (∃ pre v post,
     (kwargs.*2 ++ args)%list = (pre ++ v :: post)%list ∧
     Forall (λ x, is_RequestContext x = false) pre ∧
     is_RequestContext v = true ∧
     get_context_from_function_and_args function args kwargs = v) ∨
  (Forall (λ x, is_RequestContext x = false) (kwargs.*2 ++ args)%list ∧
   get_context_from_function_and_args function args kwargs = VNone).
Proof. apply first_context_scan. Qed.

(** ** Publishing at construction *)

Lemma get_current_VCtx t w r :
  get_current t w = VCtx r ↔ _request_store w !! t = Some r.
Proof.
  unfold get_current. destruct (_request_store w !! t); split; congruence.
Qed.

Lemma get_current_VNone t w :
  get_current t w = VNone ↔ _request_store w !! t = None.
Proof.
  unfold get_current. destruct (_request_store w !! t); split; congruence.
Qed.

(** Construction keeps the slots within the heap. *)
Lemma RequestContext_init_allocated a t w :
  store_allocated w → store_allocated (RequestContext_init a t w).2.
Proof.
  intros Hw t' r. rewrite RequestContext_init_store, RequestContext_init_heap.
  rewrite length_app. simpl.
  destruct (truthy (arg_overwrite a) || negb (truthy (get_current t w))).
  - destruct (decide (t = t')) as [->|Hne].
    + rewrite lookup_insert_eq. intros [= <-]. lia.
    + rewrite lookup_insert_ne by done. intros ?%Hw. lia.
  - intros ?%Hw. lia.
Qed.

(** What the slot of the constructing thread holds afterwards. *)
Lemma RequestContext_init_current a t w :
  get_current t (RequestContext_init a t w).2 =
  if truthy (arg_overwrite a) || negb (truthy (get_current t w))
  then VCtx (RequestContext_init a t w).1
  else get_current t w.
Proof.
  rewrite RequestContext_init_address. unfold get_current at 1.
  rewrite RequestContext_init_store.
  destruct (truthy (arg_overwrite a) || negb (truthy (get_current t w))).
  - by rewrite lookup_insert_eq.
  - reflexivity.
Qed.

Lemma RequestContext_init_other_thread a t t' w :
  t' ≠ t → get_current t' (RequestContext_init a t w).2 = get_current t' w.
Proof.
  intros Hne. unfold get_current. rewrite RequestContext_init_store.
  destruct (truthy (arg_overwrite a) || negb (truthy (get_current t w)));
    [by rewrite lookup_insert_ne|done].
Qed.

(** C2: the instance that [RequestContext(...)] creates is the current
    context of the thread afterwards exactly when [overwrite] is true or the
    thread had no current context; otherwise the current context is the one
    from before.  [get_admin_context()] therefore leaves a current context in
    place, and becomes the current context of a thread that had none. *)
Theorem init_publishes_iff a t w :
  store_allocated w →
  (get_current t (RequestContext_init a t w).2 =
     VCtx (RequestContext_init a t w).1 ↔
   truthy (arg_overwrite a) = true ∨ get_current t w = VNone) ∧
  (get_current t (RequestContext_init a t w).2 ≠
     VCtx (RequestContext_init a t w).1 →
   get_current t (RequestContext_init a t w).2 = get_current t w) ∧
  (∀ t', t' ≠ t →
     get_current t' (RequestContext_init a t w).2 = get_current t' w) ∧
  (∀ show_deleted r,
     get_current t w = VCtx r →
     get_current t (get_admin_context show_deleted t w).2 = VCtx r ∧
     (get_admin_context show_deleted t w).1 ≠ r ∧
     heap (get_admin_context show_deleted t w).2 !! r = heap w !! r) ∧
  (∀ show_deleted,
     get_current t w = VNone →
     get_current t (get_admin_context show_deleted t w).2 =
       VCtx (get_admin_context show_deleted t w).1).
Proof.
  intros Hw. split_and!.
  - rewrite RequestContext_init_current, RequestContext_init_address.
    destruct (truthy (arg_overwrite a)); simpl; [by split; eauto|].
    unfold get_current. destruct (_request_store w !! t) as [r|] eqn:Hr; simpl.
    + split; [|by intros [?|?]]. intros [= ->]. apply Hw in Hr. lia.
    + split; [by right|done].
  - rewrite RequestContext_init_current.
    destruct (truthy (arg_overwrite a) || negb (truthy (get_current t w)));
      done.
  - intros t' Hne. by apply RequestContext_init_other_thread.
  - intros show_deleted r Hr. unfold get_admin_context.
    rewrite RequestContext_init_current, RequestContext_init_address,
      RequestContext_init_heap.
    rewrite Hr. simpl. apply get_current_VCtx, Hw in Hr.
    split_and!; [done|lia|]. by rewrite lookup_app_l.
  - intros show_deleted Hnone. unfold get_admin_context.
    rewrite RequestContext_init_current. by rewrite Hnone.
Qed.

(** C6: after construction [request_id] is never empty; when the argument
    is [None] or the empty string it is a text that begins with ["req-"]. *)
Theorem request_id_after_init a t w :
  ∃ ctx,
    heap (RequestContext_init a t w).2 !! (RequestContext_init a t w).1 =
      Some ctx ∧
    truthy (request_id ctx) = true ∧
    request_id ctx ≠ VNone ∧
    request_id ctx ≠ VStr "" ∧
    (arg_request_id a = VNone ∨ arg_request_id a = VStr "" →
     ∃ s, request_id ctx = VStr s ∧ s ≠ "" ∧ String.prefix "req-" s = true).
Proof.
  eexists. split; [apply RequestContext_init_lookup|]. simpl.
  assert (Ht : truthy (request_id_of a w) = true).
  { unfold request_id_of. by destruct (truthy (arg_request_id a)) eqn:E. }
  split_and!; [done|by intros E; rewrite E in Ht..|].
  intros Harg. unfold request_id_of.
  exists ("req-" +:+ uuid4 (uuid_calls w)).
  split; [by destruct Harg as [-> | ->]|].
  change ("req-" +:+ uuid4 (uuid_calls w))
    with (String "r" (String "e" (String "q" (String "-" (uuid4 (uuid_calls w)))))).
  split; [discriminate|]. simpl. by destruct (uuid4 (uuid_calls w)).
Qed.

(** ** Calls with keywords *)

Lemma RequestContext_call_valid kwargs t w :
  valid_keywords kwargs →
  RequestContext_call kwargs t w =
  Ok (RequestContext_init (bound_arguments kwargs) t w).
Proof.
  intros Hv. unfold RequestContext_call, bind_arguments.
  destruct (decide (valid_keywords kwargs)); [reflexivity|done].
Qed.

Lemma valid_keywords_insert k v kwargs :
  k ∈ init_signature.*1 → valid_keywords kwargs →
  valid_keywords (<[k := v]> kwargs).
Proof. intros Hk Hv. by apply map_Forall_insert_2. Qed.

Lemma valid_keywords_setdefault k v kwargs :
  k ∈ init_signature.*1 → valid_keywords kwargs →
  valid_keywords (setdefault k v kwargs).
Proof.
  intros Hk Hv. unfold setdefault.
  destruct (kwargs !! k); [done|]. by apply valid_keywords_insert.
Qed.

Lemma parameter_name k : assoc k init_signature ≠ None → k ∈ init_signature.*1.
Proof. intros H. apply assoc_is_Some. by destruct (assoc k init_signature). Qed.

Lemma request_id_of_truthy a w : truthy (request_id_of a w) = true.
Proof. unfold request_id_of. by destruct (truthy (arg_request_id a)) eqn:E. Qed.

Lemma or_empty_list_idem v : or_ (or_ v (VList [])) (VList []) = or_ v (VList []).
Proof. unfold or_. by destruct (truthy v) eqn:E; simpl; rewrite ?E. Qed.

(** ** [from_dict] *)

(** The keywords [from_dict] calls the class with: an override, or else the
    entry of [values], or else the default of [from_dict]. *)
Lemma from_dict_call values kwargs t w :
  valid_keywords kwargs →
  ∃ kw,
    from_dict values kwargs t w =
      Ok (RequestContext_init (bound_arguments kw) t w) ∧
    ∀ k, kw !! k =
         match kwargs !! k with
         | Some x => Some x
         | None => get values k <$> assoc k from_dict_defaults
         end.
Proof.
  intros Hv. eexists. split.
  - unfold from_dict. apply RequestContext_call_valid.
    repeat (apply valid_keywords_setdefault; [by apply parameter_name|]).
    exact Hv.
  - intros k. rewrite !lookup_setdefault.
    destruct (kwargs !! k); [reflexivity|]. simpl.
    repeat match goal with
           | |- context [String.eqb k ?x] =>
               destruct (String.eqb_spec k x) as [->|?]; [reflexivity|]
           end.
    reflexivity.
Qed.

(** C7: a context rebuilt by [from_dict] from the [to_dict()] of a
    constructed context has the same auth_token, user, tenant, domain,
    user_domain, project_domain, is_admin, read_only, show_deleted,
    request_id, resource_uuid, roles and is_admin_project; its five display
    names are [None], whatever they were. *)
Theorem from_dict_to_dict_roundtrip a t w t' w1 :
  ∃ ctx d new ctx',
    heap (RequestContext_init a t w).2 !! (RequestContext_init a t w).1 =
      Some ctx ∧
    to_dict ctx = Ok d ∧
    from_dict d ∅ t' w1 = Ok new ∧
    heap new.2 !! new.1 = Some ctx' ∧
    (auth_token ctx' = auth_token ctx ∧
     user ctx' = user ctx ∧
     tenant ctx' = tenant ctx ∧
     domain ctx' = domain ctx ∧
     user_domain ctx' = user_domain ctx ∧
     project_domain ctx' = project_domain ctx ∧
     is_admin ctx' = is_admin ctx ∧
     read_only ctx' = read_only ctx ∧
     show_deleted ctx' = show_deleted ctx ∧
     request_id ctx' = request_id ctx ∧
     resource_uuid ctx' = resource_uuid ctx ∧
     roles ctx' = roles ctx ∧
     is_admin_project ctx' = is_admin_project ctx) ∧
    (user_name ctx = arg_user_name a ∧ user_name ctx' = VNone) ∧
    (project_name ctx = arg_project_name a ∧ project_name ctx' = VNone) ∧
    (domain_name ctx = arg_domain_name a ∧ domain_name ctx' = VNone) ∧
    (user_domain_name ctx = arg_user_domain_name a ∧
     user_domain_name ctx' = VNone) ∧
    (project_domain_name ctx = arg_project_domain_name a ∧
     project_domain_name ctx' = VNone).
Proof.
  pose (ctx := set_attributes a (request_id_of a w)).
  pose proof (to_dict_eq ctx) as Hd.
  match type of Hd with _ = Ok ?m => set (d := m) in * end.
  destruct (from_dict_call d ∅ t' w1) as (kw & Hfd & Hkw);
    [apply map_Forall_empty|].
  assert (Hget : ∀ k dflt,
            get kw k dflt =
            default dflt (get d k <$> assoc k from_dict_defaults)).
  { intros k dflt. unfold get at 1. by rewrite Hkw, lookup_empty. }
  assert (Hrid : arg_request_id (bound_arguments kw) = request_id_of a w).
  { simpl. rewrite Hget. simpl. unfold get, d. by rewrite lookup_mkdict. }
  exists ctx, d, (RequestContext_init (bound_arguments kw) t' w1),
    (set_attributes (bound_arguments kw)
                    (request_id_of (bound_arguments kw) w1)).
  split; [apply RequestContext_init_lookup|].
  split; [exact Hd|]. split; [exact Hfd|].
  split; [apply RequestContext_init_lookup|].
  split_and!; simpl; rewrite ?Hget; simpl; unfold get, d;
    rewrite ?lookup_mkdict; simpl; try reflexivity.
  - unfold request_id_of at 1. rewrite Hrid.
    by rewrite request_id_of_truthy.
  - apply or_empty_list_idem.
Qed.

(** ** [from_environ] *)

Lemma first_header_lookup k v_list environ kwargs j :
  first_header k v_list environ kwargs !! j =
  if String.eqb j k
  then match first_present environ v_list with
       | Some x => Some x
       | None => kwargs !! j
       end
  else kwargs !! j.
Proof.
  induction v_list as [|v v_list IH]; simpl.
  - by destruct (String.eqb j k).
  - destruct (environ !! v); [|exact IH].
    destruct (String.eqb_spec j k) as [Heq|Hne].
    + by rewrite Heq, lookup_insert_eq.
    + by rewrite lookup_insert_ne.
Qed.

Lemma headers_of_None k headers : k ∉ headers.*1 → headers_of k headers = None.
Proof.
  induction headers as [|[k' v_list] headers IH]; simpl; [done|].
  rewrite not_elem_of_cons. intros [Hne Hk].
  destruct (String.eqb_spec k k'); [done|]. by apply IH.
Qed.

Lemma add_headers_cons k v_list headers environ kwargs :
  add_headers ((k, v_list) :: headers) environ kwargs =
  add_headers headers environ
    (if decide (is_Some (kwargs !! k)) then kwargs
     else first_header k v_list environ kwargs).
Proof. reflexivity. Qed.

(** After the loop over a table whose fields are distinct, a field holds
    its override, or else the first header of its list that is present. *)
Lemma add_headers_lookup headers environ kwargs j :
  NoDup headers.*1 →
  add_headers headers environ kwargs !! j =
  match kwargs !! j with
  | Some x => Some x
  | None =>
      match headers_of j headers with
      | Some v_list => first_present environ v_list
      | None => None
      end
  end.
Proof.
  intros Hnd. revert kwargs.
  induction headers as [|[k v_list] headers IH]; intros kwargs.
  - simpl. by destruct (kwargs !! j).
  - apply NoDup_cons in Hnd as [Hk Hnd]. simpl in Hk.
    rewrite add_headers_cons, (IH Hnd). simpl.
    destruct (decide (is_Some (kwargs !! k))) as [[x Hx]|Hnone].
    + destruct (kwargs !! j) eqn:Hj; [done|].
      destruct (String.eqb_spec j k) as [Heq|Hne]; [congruence|done].
    + apply eq_None_not_Some in Hnone. rewrite first_header_lookup.
      destruct (String.eqb_spec j k) as [Heq|Hne]; [|done].
      rewrite Heq, Hnone, (headers_of_None _ _ Hk).
      by destruct (first_present environ v_list).
Qed.

Lemma valid_keywords_first_header k v_list environ kwargs :
  k ∈ init_signature.*1 → valid_keywords kwargs →
  valid_keywords (first_header k v_list environ kwargs).
Proof.
  intros Hk Hv. induction v_list as [|v v_list IH]; simpl; [done|].
  destruct (environ !! v); [by apply valid_keywords_insert|done].
Qed.

Lemma valid_keywords_add_headers headers environ kwargs :
  Forall (λ kv, kv.1 ∈ init_signature.*1) headers → valid_keywords kwargs →
  valid_keywords (add_headers headers environ kwargs).
Proof.
  intros Hh. revert kwargs.
  induction Hh as [|[k v_list] headers Hk Hh IH]; intros kwargs Hv; [done|].
  rewrite add_headers_cons. apply IH.
  destruct (decide (is_Some (kwargs !! k))); [done|].
  by apply valid_keywords_first_header.
Qed.

Lemma environ_headers_distinct : NoDup _ENVIRON_HEADERS.*1.
Proof. by apply (bool_decide_unpack _); vm_compute. Qed.

Lemma environ_headers_parameters :
  Forall (λ kv, kv.1 ∈ init_signature.*1) _ENVIRON_HEADERS.
Proof. repeat constructor; by apply parameter_name. Qed.

Lemma comprehension_strip l :
  comprehension str_strip (VStr <$> l) = Ok (VStr <$> (strip <$> l)).
Proof.
  induction l as [|s l IH]; [done|].
  change (comprehension str_strip (VStr <$> s :: l))
    with (xs ← comprehension str_strip (VStr <$> l); Ok (VStr (strip s) :: xs)).
  by rewrite IH.
Qed.

Lemma add_roles_eq environ kwargs :
  string_headers environ →
  add_roles environ kwargs =
  Ok (if decide (is_Some (kwargs !! "roles")) then kwargs
      else <["roles" := environ_roles environ]> kwargs).
Proof.
  intros (Hroles & Hrole & _). unfold add_roles, environ_roles, roles_header, get.
  destruct (decide (is_Some (kwargs !! "roles"))); [done|].
  destruct (environ !! "HTTP_X_ROLES") as [[| | |s| |]|]; try done; simpl.
  - destruct (String.eqb s ""); simpl; [done|]. by rewrite comprehension_strip.
  - destruct (environ !! "HTTP_X_ROLE") as [[| | |s| |]|]; try done; simpl.
    destruct (String.eqb s ""); simpl; [done|]. by rewrite comprehension_strip.
Qed.

Lemma add_is_admin_project_eq environ kwargs :
  string_headers environ →
  add_is_admin_project environ kwargs =
  Ok (if decide (is_Some (kwargs !! "is_admin_project")) then kwargs
      else <["is_admin_project" := environ_is_admin_project environ]> kwargs).
Proof.
  intros (_ & _ & Hadmin).
  unfold add_is_admin_project, environ_is_admin_project, get.
  destruct (decide (is_Some (kwargs !! "is_admin_project"))); [done|].
  by destruct (environ !! "HTTP_X_IS_ADMIN_PROJECT") as [[| | |s| |]|].
Qed.

Lemma bind_Ok {A B} (a : A) (f : A → result B) : (x ← Ok a; f x) = f a.
Proof. reflexivity. Qed.

(** The keywords [from_environ] calls the class with. *)
Lemma from_environ_call environ kwargs t w :
  valid_keywords kwargs → string_headers environ →
  ∃ kw,
    from_environ environ kwargs t w =
      Ok (RequestContext_init (bound_arguments kw) t w) ∧
    (∀ k, k ≠ "roles" → k ≠ "is_admin_project" →
          kw !! k = match kwargs !! k with
                    | Some x => Some x
                    | None => header_value environ k
                    end) ∧
    (kwargs !! "roles" = None → kw !! "roles" = Some (environ_roles environ)) ∧
    (kwargs !! "is_admin_project" = None →
     kw !! "is_admin_project" = Some (environ_is_admin_project environ)).
Proof.
  intros Hv Hs. unfold from_environ.
  set (k1 := add_headers _ENVIRON_HEADERS environ kwargs).
  assert (Hk1 : ∀ k, k1 !! k = match kwargs !! k with
                               | Some x => Some x
                               | None => header_value environ k
                               end).
  { intros k. apply add_headers_lookup, environ_headers_distinct. }
  assert (Hv1 : valid_keywords k1).
  { by apply valid_keywords_add_headers; [apply environ_headers_parameters|]. }
  rewrite (add_roles_eq _ _ Hs), bind_Ok.
  set (k2 := if decide (is_Some (k1 !! "roles")) then k1
             else <["roles" := environ_roles environ]> k1).
  assert (Hv2 : valid_keywords k2).
  { unfold k2. destruct (decide (is_Some (k1 !! "roles"))); [exact Hv1|].
    by apply valid_keywords_insert; [apply parameter_name|]. }
  rewrite (add_is_admin_project_eq _ _ Hs), bind_Ok.
  set (k3 := if decide (is_Some (k2 !! "is_admin_project")) then k2
             else <["is_admin_project" := environ_is_admin_project environ]> k2).
  assert (Hv3 : valid_keywords k3).
  { unfold k3. destruct (decide (is_Some (k2 !! "is_admin_project")));
      [exact Hv2|].
    by apply valid_keywords_insert; [apply parameter_name|]. }
  assert (Hk2 : ∀ k, k ≠ "roles" → k2 !! k = k1 !! k).
  { intros k Hne. unfold k2. destruct (decide (is_Some (k1 !! "roles")));
      [reflexivity|].
    by rewrite lookup_insert_ne. }
  assert (Hk3 : ∀ k, k ≠ "is_admin_project" → k3 !! k = k2 !! k).
  { intros k Hne. unfold k3.
    destruct (decide (is_Some (k2 !! "is_admin_project"))); [reflexivity|].
    by rewrite lookup_insert_ne. }
  exists k3. split; [by apply RequestContext_call_valid|]. split_and!.
  - intros k Hr Ha. by rewrite Hk3, Hk2, Hk1.
  - intros Hnone. rewrite Hk3 by done. unfold k2.
    destruct (decide (is_Some (k1 !! "roles"))) as [[x Hx]|_];
      [|by rewrite lookup_insert_eq].
    rewrite Hk1, Hnone in Hx. discriminate Hx.
  - intros Hnone. unfold k3.
    destruct (decide (is_Some (k2 !! "is_admin_project"))) as [[x Hx]|_];
      [|by rewrite lookup_insert_eq].
    rewrite Hk2, Hk1, Hnone in Hx by done. discriminate Hx.
Qed.

Lemma header_value_tenant environ :
  header_value environ "tenant" =
  first_present environ ["HTTP_X_PROJECT_ID"; "HTTP_X_TENANT_ID"; "HTTP_X_TENANT"].
Proof. reflexivity. Qed.

Lemma or_list l : or_ (VList l) (VList []) = VList l.
Proof. by destruct l. Qed.

(** C3: with no [tenant] keyword, [from_environ] takes the tenant from the
    first of [HTTP_X_PROJECT_ID], [HTTP_X_TENANT_ID], [HTTP_X_TENANT] that the
    environment has: from [HTTP_X_TENANT] when it is the only one of the
    three, from [HTTP_X_PROJECT_ID] when that one and [HTTP_X_TENANT] are
    both there. *)
Theorem from_environ_tenant environ kwargs t w :
  valid_keywords kwargs → string_headers environ →
  kwargs !! "tenant" = None →
  ∃ new ctx,
    from_environ environ kwargs t w = Ok new ∧
    heap new.2 !! new.1 = Some ctx ∧
    tenant ctx =
      match environ !! "HTTP_X_PROJECT_ID" with
      | Some v => v
      | None =>
          match environ !! "HTTP_X_TENANT_ID" with
          | Some v => v
          | None =>
              match environ !! "HTTP_X_TENANT" with
              | Some v => v
              | None => VNone
              end
          end
      end ∧
    (∀ v, environ !! "HTTP_X_PROJECT_ID" = None →
          environ !! "HTTP_X_TENANT_ID" = None →
          environ !! "HTTP_X_TENANT" = Some v → tenant ctx = v) ∧
    (∀ p v, environ !! "HTTP_X_PROJECT_ID" = Some p →
            environ !! "HTTP_X_TENANT" = Some v → tenant ctx = p).
Proof.
  intros Hv Hs Hnone.
  destruct (from_environ_call environ kwargs t w Hv Hs)
    as (kw & Hcall & Hkw & _ & _).
  assert (Ht : arg_tenant (bound_arguments kw) =
               default VNone (first_present environ
                 ["HTTP_X_PROJECT_ID"; "HTTP_X_TENANT_ID"; "HTTP_X_TENANT"])).
  { simpl. unfold get. rewrite Hkw, Hnone by done.
    by rewrite header_value_tenant. }
  eexists _, _. split; [exact Hcall|].
  split; [apply RequestContext_init_lookup|].
  change (tenant (set_attributes ?a ?r)) with (arg_tenant a).
  rewrite Ht. simpl. split_and!.
  - by destruct (environ !! "HTTP_X_PROJECT_ID"),
      (environ !! "HTTP_X_TENANT_ID"), (environ !! "HTTP_X_TENANT").
  - intros v -> -> ->. reflexivity.
  - intros p v -> _. reflexivity.
Qed.

(** C4, amended: with no [roles] keyword, [from_environ] reads
    [HTTP_X_ROLES], or [HTTP_X_ROLE] when that is absent; a string that is not
    empty gives its pieces between commas, each without the whitespace around
    it; no header, or an empty one, gives no roles.  ["admin, member ,ops"]
    gives [admin], [member], [ops]. *)
Theorem from_environ_roles environ kwargs t w :
  valid_keywords kwargs → string_headers environ →
  kwargs !! "roles" = None →
  ∃ new ctx,
    from_environ environ kwargs t w = Ok new ∧
    heap new.2 !! new.1 = Some ctx ∧
    (roles_header environ = None → roles ctx = VList []) ∧
    (roles_header environ = Some (VStr "") → roles ctx = VList []) ∧
    (∀ s, s ≠ "" → roles_header environ = Some (VStr s) →
          roles ctx = VList (VStr <$> (strip <$> split "," s))) ∧
    (roles_header environ = Some (VStr "admin, member ,ops") →
     roles ctx = VList [VStr "admin"; VStr "member"; VStr "ops"]).
Proof.
  intros Hv Hs Hnone.
  destruct (from_environ_call environ kwargs t w Hv Hs)
    as (kw & Hcall & _ & Hkw & _).
  assert (Hr : or_ (arg_roles (bound_arguments kw)) (VList []) =
               environ_roles environ).
  { simpl. unfold get. rewrite (Hkw Hnone). simpl. unfold environ_roles.
    destruct (roles_header environ) as [[| | |s| |]|]; try reflexivity.
    destruct (String.eqb s ""); [reflexivity|apply or_list]. }
  eexists _, _. split; [exact Hcall|].
  split; [apply RequestContext_init_lookup|].
  change (roles (set_attributes ?a ?r)) with (or_ (arg_roles a) (VList [])).
  rewrite Hr. unfold environ_roles. split_and!.
  - by intros ->.
  - by intros ->.
  - intros s Hne ->. by destruct (String.eqb_spec s "").
  - by intros ->.
Qed.

(** C5: with no [is_admin_project] keyword, [from_environ] succeeds whatever
    string [HTTP_X_IS_ADMIN_PROJECT] holds; the flag is true when the header is
    absent, and otherwise true exactly when the string in lower case is
    ["true"]. *)
Theorem from_environ_is_admin_project environ kwargs t w :
  valid_keywords kwargs → string_headers environ →
  kwargs !! "is_admin_project" = None →
  ∃ new ctx,
    from_environ environ kwargs t w = Ok new ∧
    heap new.2 !! new.1 = Some ctx ∧
    (environ !! "HTTP_X_IS_ADMIN_PROJECT" = None →
     is_admin_project ctx = VBool true) ∧
    (∀ s, environ !! "HTTP_X_IS_ADMIN_PROJECT" = Some (VStr s) →
          (lower s = "true" → is_admin_project ctx = VBool true) ∧
          (lower s ≠ "true" → is_admin_project ctx = VBool false)).
Proof.
  intros Hv Hs Hnone.
  destruct (from_environ_call environ kwargs t w Hv Hs)
    as (kw & Hcall & _ & _ & Hkw).
  assert (Ha : arg_is_admin_project (bound_arguments kw) =
               environ_is_admin_project environ).
  { simpl. unfold get. by rewrite (Hkw Hnone). }
  eexists _, _. split; [exact Hcall|].
  split; [apply RequestContext_init_lookup|].
  change (is_admin_project (set_attributes ?a ?r))
    with (arg_is_admin_project a).
  rewrite Ha. unfold environ_is_admin_project. split.
  - by intros ->.
  - intros s ->. by destruct (String.eqb_spec (lower s) "true").
Qed.

(** ** Attributes by name *)

Lemma assoc_elem k l : assoc k l ≠ None → k ∈ l.*1.
Proof. intros H. apply assoc_is_Some. by destruct (assoc k l). Qed.

(** A parameter that [__init__] copies is the attribute of its name. *)
Lemma attribute_copied kw rid k :
  k ∈ copied_parameters →
  attribute k (set_attributes (bound_arguments kw) rid) =
  Some (get kw k (init_default k)).
Proof.
  intros H. unfold copied_parameters in H.
  repeat (apply elem_of_cons in H as [->|H]; [reflexivity|]).
  by apply elem_of_nil in H.
Qed.

(** X1: [from_dict] resolves each copied attribute in three layers: the
    keyword override, else the entry of [values], else the default of the
    constructor. *)
Theorem from_dict_layers values kwargs t w k :
  valid_keywords kwargs → k ∈ copied_parameters →
  ∃ new ctx,
    from_dict values kwargs t w = Ok new ∧
    heap new.2 !! new.1 = Some ctx ∧
    attribute k ctx =
      Some (match kwargs !! k with
            | Some x => x
            | None =>
                match values !! k with
                | Some x => x
                | None => init_default k
                end
            end).
Proof.
  intros Hv Hk.
  destruct (from_dict_call values kwargs t w Hv) as (kw & Hcall & Hkw).
  eexists _, _. split; [exact Hcall|].
  split; [apply RequestContext_init_lookup|].
  rewrite attribute_copied by done. unfold get at 1. rewrite Hkw.
  destruct (kwargs !! k); [reflexivity|]. f_equal.
  unfold copied_parameters in Hk.
  repeat (apply elem_of_cons in Hk as [->|Hk];
          [simpl; unfold get; by destruct (values !! _)|]).
  by apply elem_of_nil in Hk.
Qed.

(** X2: a keyword that is no parameter of the constructor makes [from_dict]
    raise [TypeError], whatever [values] holds. *)
Theorem from_dict_unknown_keyword values kwargs t w k v :
  kwargs !! k = Some v → k ∉ init_signature.*1 →
  from_dict values kwargs t w = Raise TypeError.
Proof.
  intros Hk Hnot. unfold from_dict, RequestContext_call, bind_arguments.
  cbv zeta.
  match goal with
  | |- context [decide (valid_keywords ?kw)] =>
      destruct (decide (valid_keywords kw)) as [Hv|_]; [|reflexivity]
  end.
  exfalso. apply Hnot. apply (Hv k v).
  rewrite !lookup_setdefault, Hk. reflexivity.
Qed.

(** X3: [from_dict] reads [values] only under the eighteen keys it names:
    two dicts that agree on them give the same result. *)
Theorem from_dict_ignores_other_keys values values' kwargs t w :
  (∀ k, k ∈ from_dict_defaults.*1 → values !! k = values' !! k) →
  from_dict values kwargs t w = from_dict values' kwargs t w.
Proof.
  intros Hagree.
  assert (Hget : ∀ k d, assoc k from_dict_defaults ≠ None →
                        get values k d = get values' k d).
  { intros k d Hk. unfold get. by rewrite (Hagree k (assoc_elem _ _ Hk)). }
  unfold from_dict.
  repeat match goal with
         | |- context [get values ?k ?d] =>
             rewrite (Hget k d) by discriminate
         end.
  reflexivity.
Qed.

(** What [get_logging_values()] of the class holds under each key. *)
Lemma get_logging_values_lookup ctx :
  ∃ m, get_logging_values to_dict ctx = Ok m ∧
       ∀ k, m !! k =
            match attribute k ctx with
            | Some v => Some v
            | None =>
                if String.eqb k "user_identity"
                then Some (VStr (String.concat " "
                       (identity_part <$> identity_fields ctx)))
                else None
            end.
Proof.
  unfold get_logging_values. rewrite to_dict_eq. eexists.
  split; [reflexivity|]. intros k.
  rewrite lookup_update, !lookup_mkdict. unfold attribute. simpl.
  repeat match goal with
         | |- context [String.eqb k ?x] =>
             destruct (String.eqb_spec k x) as [->|?]; [reflexivity|]
         end.
  reflexivity.
Qed.

(** X4: for the class itself [get_logging_values()] holds each of the
    eighteen attributes under its own name, [user_identity], and nothing
    else. *)
Theorem get_logging_values_attributes self :
  ∃ m,
    get_logging_values to_dict self = Ok m ∧
    (∀ k v, attribute k self = Some v → m !! k = Some v) ∧
    (∀ k, attribute k self = None → k ≠ "user_identity" → m !! k = None) ∧
    m !! "user_identity" =
      Some (VStr (String.concat " " (identity_part <$> identity_fields self))).
Proof.
  destruct (get_logging_values_lookup self) as (m & Hm & Hlook).
  exists m. split; [exact Hm|]. split_and!.
  - intros k v Hk. by rewrite Hlook, Hk.
  - intros k Hk Hne. rewrite Hlook, Hk.
    by destruct (String.eqb_spec k "user_identity").
  - by rewrite Hlook.
Qed.

(** X5: rebuilding a constructed context with [from_dict] from its
    [get_logging_values()] gives an instance with the same eighteen
    attributes, display names included. *)
Theorem from_dict_get_logging_values_roundtrip a t w t' w1 :
  ∃ ctx m new,
    heap (RequestContext_init a t w).2 !! (RequestContext_init a t w).1 =
      Some ctx ∧
    get_logging_values to_dict ctx = Ok m ∧
    from_dict m ∅ t' w1 = Ok new ∧
    heap new.2 !! new.1 = Some ctx.
Proof.
  pose (ctx := set_attributes a (request_id_of a w)).
  destruct (get_logging_values_lookup ctx) as (m & Hm & Hlook).
  destruct (from_dict_call m ∅ t' w1) as (kw & Hfd & Hkw);
    [apply map_Forall_empty|].
  assert (Hget : ∀ k dflt,
            get kw k dflt =
            default dflt (get m k <$> assoc k from_dict_defaults)).
  { intros k dflt. unfold get at 1. by rewrite Hkw, lookup_empty. }
  exists ctx, m, (RequestContext_init (bound_arguments kw) t' w1).
  split; [apply RequestContext_init_lookup|].
  split; [exact Hm|]. split; [exact Hfd|].
  rewrite RequestContext_init_lookup. f_equal.
  assert (Hrid : arg_request_id (bound_arguments kw) = request_id_of a w).
  { simpl. rewrite Hget. simpl. unfold get. by rewrite Hlook. }
  unfold request_id_of at 1. rewrite Hrid, request_id_of_truthy.
  unfold ctx, set_attributes. simpl.
  rewrite !Hget. simpl. unfold get. rewrite !Hlook. simpl.
  by rewrite or_empty_list_idem.
Qed.

(** X6: after construction [roles] is never [None]: it is the argument when
    that is true, and the empty list otherwise. *)
Theorem roles_never_none a t w :
  ∃ ctx,
    heap (RequestContext_init a t w).2 !! (RequestContext_init a t w).1 =
      Some ctx ∧
    roles ctx ≠ VNone ∧
    (truthy (arg_roles a) = true → roles ctx = arg_roles a) ∧
    (truthy (arg_roles a) = false → roles ctx = VList []).
Proof.
  eexists. split; [apply RequestContext_init_lookup|]. simpl. unfold or_.
  destruct (truthy (arg_roles a)) eqn:E; split_and!; try done.
  intros H. by rewrite H in E.
Qed.

(** X7: two constructions in a row that are given no [request_id] draw two
    successive identifiers, so their ids differ when those do. *)
Theorem fresh_request_ids a1 a2 t1 t2 w :
  truthy (arg_request_id a1) = false →
  truthy (arg_request_id a2) = false →
  uuid4 (uuid_calls w) ≠ uuid4 (S (uuid_calls w)) →
  ∃ ctx1 ctx2,
    heap (RequestContext_init a1 t1 w).2 !! (RequestContext_init a1 t1 w).1 =
      Some ctx1 ∧
    heap (RequestContext_init a2 t2 (RequestContext_init a1 t1 w).2).2
      !! (RequestContext_init a2 t2 (RequestContext_init a1 t1 w).2).1 =
      Some ctx2 ∧
    request_id ctx1 = VStr ("req-" +:+ uuid4 (uuid_calls w)) ∧
    request_id ctx2 = VStr ("req-" +:+ uuid4 (S (uuid_calls w))) ∧
    request_id ctx1 ≠ request_id ctx2.
Proof.
  intros H1 H2 Hne.
  assert (Hcalls : uuid_calls (RequestContext_init a1 t1 w).2 =
                   S (uuid_calls w)).
  { unfold RequestContext_init, generate_request_id, update_store.
    rewrite H1. simpl.
    match goal with |- context [if ?b then _ else _] => destruct b end;
      reflexivity. }
  eexists _, _. split; [apply RequestContext_init_lookup|].
  split; [apply RequestContext_init_lookup|]. simpl.
  unfold request_id_of. rewrite H1, H2, Hcalls.
  split; [reflexivity|]. split; [reflexivity|].
  intros [= Heq]. by apply Hne.
Qed.

(** X8: construction adds one instance and leaves every instance that
    existed as it was; if every slot named an instance before, every slot
    names one afterwards. *)
Theorem init_preserves_instances a t w :
  length (heap (RequestContext_init a t w).2) = S (length (heap w)) ∧
  (∀ r ctx, heap w !! r = Some ctx →
            heap (RequestContext_init a t w).2 !! r = Some ctx) ∧
  (store_allocated w →
   ∀ t' r, get_current t' (RequestContext_init a t w).2 = VCtx r →
           is_Some (heap (RequestContext_init a t w).2 !! r)).
Proof.
  split_and!.
  - rewrite RequestContext_init_heap, length_app. simpl. lia.
  - intros r ctx Hr. rewrite RequestContext_init_heap.
    rewrite lookup_app_l; [done|]. by apply lookup_lt_Some in Hr.
  - intros Hw t' r Hr. apply lookup_lt_is_Some.
    apply get_current_VCtx in Hr.
    by apply (RequestContext_init_allocated a t w Hw t' r).
Qed.

(** X9: a freshly built context is a user context exactly when its
    [is_admin] argument is false; the context of [get_admin_context] is
    none, and neither is a value that is no context. *)
Theorem is_user_context_of_new a t w :
  is_user_context (VCtx (RequestContext_init a t w).1)
                  (RequestContext_init a t w).2 =
    Some (negb (truthy (arg_is_admin a))) ∧
  (∀ show_deleted,
     is_user_context (VCtx (get_admin_context show_deleted t w).1)
                     (get_admin_context show_deleted t w).2 = Some false) ∧
  (∀ v, is_RequestContext v = false → is_user_context v w = Some false).
Proof.
  assert (Hnew : ∀ a, is_user_context (VCtx (RequestContext_init a t w).1)
                        (RequestContext_init a t w).2 =
                      Some (negb (truthy (arg_is_admin a)))).
  { intros a'. unfold is_user_context. simpl.
    rewrite RequestContext_init_lookup. simpl.
    by destruct (truthy (arg_is_admin a')). }
  split_and!.
  - apply Hnew.
  - intros show_deleted. unfold get_admin_context. by rewrite Hnew.
  - intros v Hv. unfold is_user_context. rewrite Hv.
    by rewrite orb_true_r.
Qed.

(** X10: [to_policy_values()] has exactly its six keys, and holds under
    them what [to_dict()] holds under [user], [user_domain], [tenant],
    [project_domain], [roles] and [is_admin_project]. *)
Theorem to_policy_values_to_dict self :
  ∃ d,
    to_dict self = Ok d ∧
    dom (to_policy_values self) =
      list_to_set ["user_id"; "user_domain_id"; "project_id";
                   "project_domain_id"; "roles"; "is_admin_project"] ∧
    to_policy_values self !! "user_id" = d !! "user" ∧
    to_policy_values self !! "user_domain_id" = d !! "user_domain" ∧
    to_policy_values self !! "project_id" = d !! "tenant" ∧
    to_policy_values self !! "project_domain_id" = d !! "project_domain" ∧
    to_policy_values self !! "roles" = d !! "roles" ∧
    to_policy_values self !! "is_admin_project" = d !! "is_admin_project".
Proof.
  eexists. split; [apply to_dict_eq|]. unfold to_policy_values.
  split; [apply dom_mkdict|].
  rewrite !lookup_mkdict. by repeat split.
Qed.

(** ** More on [from_environ] *)

Lemma bind_Raise {A B} (e : exn) (f : A → result B) :
  (x ← Raise e; f x) = Raise e.
Proof. reflexivity. Qed.

Lemma from_environ_stages environ kwargs t w k2 k3 :
  add_roles environ (add_headers _ENVIRON_HEADERS environ kwargs) = Ok k2 →
  add_is_admin_project environ k2 = Ok k3 →
  from_environ environ kwargs t w = RequestContext_call k3 t w.
Proof.
  intros H2 H3. unfold from_environ. by rewrite H2, bind_Ok, H3, bind_Ok.
Qed.

Lemma add_headers_untabled environ kwargs k :
  headers_of k _ENVIRON_HEADERS = None →
  add_headers _ENVIRON_HEADERS environ kwargs !! k = kwargs !! k.
Proof.
  intros Hk. rewrite add_headers_lookup by apply environ_headers_distinct.
  rewrite Hk. by destruct (kwargs !! k).
Qed.

Lemma add_roles_override environ kwargs :
  is_Some (kwargs !! "roles") → add_roles environ kwargs = Ok kwargs.
Proof.
  intros H. unfold add_roles.
  by destruct (decide (is_Some (kwargs !! "roles"))).
Qed.

Lemma add_is_admin_project_override environ kwargs :
  is_Some (kwargs !! "is_admin_project") →
  add_is_admin_project environ kwargs = Ok kwargs.
Proof.
  intros H. unfold add_is_admin_project.
  by destruct (decide (is_Some (kwargs !! "is_admin_project"))).
Qed.


(** X11: a keyword that is no parameter of the constructor makes
    [from_environ] raise [TypeError]. *)
Theorem from_environ_unknown_keyword environ kwargs t w k v :
  string_headers environ →
  kwargs !! k = Some v → k ∉ init_signature.*1 →
  from_environ environ kwargs t w = Raise TypeError.
Proof.
  intros Hs Hk Hnot.
  rewrite (from_environ_stages environ kwargs t w _ _
             (add_roles_eq _ _ Hs) (add_is_admin_project_eq _ _ Hs)).
  unfold RequestContext_call, bind_arguments.
  match goal with
  | |- context [decide (valid_keywords ?kw)] =>
      destruct (decide (valid_keywords kw)) as [Hv|_]; [|reflexivity]
  end.
  exfalso. apply Hnot, (Hv k v).
  assert (k ≠ "roles") by (intros ->; apply Hnot; by apply parameter_name).
  assert (k ≠ "is_admin_project")
    by (intros ->; apply Hnot; by apply parameter_name).
  destruct (decide (is_Some (_ !! "is_admin_project")));
    rewrite ?lookup_insert_ne by done;
    destruct (decide (is_Some (_ !! "roles")));
    rewrite ?lookup_insert_ne by done;
    rewrite add_headers_lookup by apply environ_headers_distinct;
    by rewrite Hk.
Qed.

(** X12: with [roles] and [is_admin_project] both given as keywords,
    [from_environ] reads neither header and returns a context whatever the
    environment holds; the two attributes come from the keywords. *)
Theorem from_environ_overrides_skip_headers environ kwargs t w vr va :
  valid_keywords kwargs →
  kwargs !! "roles" = Some vr → kwargs !! "is_admin_project" = Some va →
  ∃ new ctx,
    from_environ environ kwargs t w = Ok new ∧
    heap new.2 !! new.1 = Some ctx ∧
    roles ctx = or_ vr (VList []) ∧
    is_admin_project ctx = va.
Proof.
  intros Hv Hr Ha.
  set (k1 := add_headers _ENVIRON_HEADERS environ kwargs).
  assert (Hr1 : k1 !! "roles" = Some vr)
    by (unfold k1; by rewrite add_headers_untabled).
  assert (Ha1 : k1 !! "is_admin_project" = Some va)
    by (unfold k1; by rewrite add_headers_untabled).
  rewrite (from_environ_stages environ kwargs t w k1 k1);
    [|by apply add_roles_override; eauto
     |by apply add_is_admin_project_override; eauto].
  rewrite RequestContext_call_valid
    by (by apply valid_keywords_add_headers;
          [apply environ_headers_parameters|]).
  eexists _, _. split; [reflexivity|].
  split; [apply RequestContext_init_lookup|]. simpl. unfold get.
  by rewrite Hr1, Ha1.
Qed.

(** X13: with no [roles] keyword, a roles header that is true and not a
    string makes [from_environ] raise [AttributeError]. *)
Theorem from_environ_roles_not_string environ kwargs t w v :
  kwargs !! "roles" = None →
  roles_header environ = Some v → truthy v = true → (∀ s, v ≠ VStr s) →
  from_environ environ kwargs t w = Raise AttributeError.
Proof.
  intros Hnone Hhdr Htrue Hstr. unfold from_environ, add_roles.
  destruct (decide (is_Some (_ !! "roles"))) as [[x Hx]|_].
  { rewrite add_headers_untabled in Hx by reflexivity. congruence. }
  assert (Hget : get environ "HTTP_X_ROLES" (get environ "HTTP_X_ROLE" VNone)
                 = v).
  { unfold get. unfold roles_header in Hhdr.
    destruct (environ !! "HTTP_X_ROLES"); [by injection Hhdr|].
    by rewrite Hhdr. }
  cbv zeta. rewrite Hget, Htrue.
  destruct v as [| | |s| |]; try reflexivity. by destruct (Hstr s).
Qed.


(** X15: with valid keywords and string headers, [from_environ] resolves each
    copied attribute other than [is_admin_project] from its keyword; else,
    when the attribute has a list in the header table, from the first header
    of the list that is present, or [None] when none is; an attribute with
    no list is never read from the environment. *)
Theorem from_environ_attribute environ kwargs t w k :
  valid_keywords kwargs → string_headers environ →
  k ∈ copied_parameters → k ≠ "is_admin_project" →
  ∃ new ctx,
    from_environ environ kwargs t w = Ok new ∧
    heap new.2 !! new.1 = Some ctx ∧
    attribute k ctx =
      Some (match kwargs !! k with
            | Some x => x
            | None =>
                match headers_of k _ENVIRON_HEADERS with
                | Some v_list => default VNone (first_present environ v_list)
                | None => init_default k
                end
            end).
Proof.
  intros Hv Hs Hk Hflag.
  destruct (from_environ_call environ kwargs t w Hv Hs)
    as (kw & Hcall & Hkw & _ & _).
  eexists _, _. split; [exact Hcall|].
  split; [apply RequestContext_init_lookup|].
  rewrite attribute_copied by done. unfold get.
  assert (Hroles : k ≠ "roles").
  { intros ->. unfold copied_parameters in Hk.
    repeat (apply elem_of_cons in Hk as [?|Hk]; [discriminate|]).
    by apply elem_of_nil in Hk. }
  rewrite Hkw by done. destruct (kwargs !! k); [reflexivity|].
  unfold header_value, copied_parameters in *. f_equal.
  repeat (apply elem_of_cons in Hk as [->|Hk];
          [first [done | simpl; by destruct (first_present _ _)]|]).
  by apply elem_of_nil in Hk.
Qed.

(** X16: with no [request_id] keyword, [from_environ] keeps an
    [openstack.request_id] entry that is true, and generates an identifier
    when the entry is missing or false. *)
Theorem from_environ_request_id environ kwargs t w :
  valid_keywords kwargs → string_headers environ →
  kwargs !! "request_id" = None →
  ∃ new ctx,
    from_environ environ kwargs t w = Ok new ∧
    heap new.2 !! new.1 = Some ctx ∧
    (∀ v, environ !! "openstack.request_id" = Some v → truthy v = true →
          request_id ctx = v) ∧
    (∀ v, environ !! "openstack.request_id" = Some v → truthy v = false →
          request_id ctx = VStr ("req-" +:+ uuid4 (uuid_calls w))) ∧
    (environ !! "openstack.request_id" = None →
     request_id ctx = VStr ("req-" +:+ uuid4 (uuid_calls w))).
Proof.
  intros Hv Hs Hnone.
  destruct (from_environ_call environ kwargs t w Hv Hs)
    as (kw & Hcall & Hkw & _ & _).
  assert (Hrid : arg_request_id (bound_arguments kw) =
                 default VNone (environ !! "openstack.request_id")).
  { simpl. unfold get. rewrite Hkw, Hnone by done.
    change (header_value environ "request_id")
      with (first_present environ ["openstack.request_id"]).
    simpl. by destruct (environ !! "openstack.request_id"). }
  eexists _, _. split; [exact Hcall|].
  split; [apply RequestContext_init_lookup|].
  change (request_id (set_attributes ?a ?r)) with r.
  unfold request_id_of. rewrite Hrid. split_and!.
  - intros v -> Ht. simpl. by rewrite Ht.
  - intros v -> Ht. simpl. by rewrite Ht.
  - intros ->. reflexivity.
Qed.

(** X17: without an [overwrite] keyword the context that [from_environ]
    builds becomes the current context of the thread; the current contexts
    of the other threads and the instances that existed stay as they were. *)
Theorem from_environ_publishes environ kwargs t w :
  valid_keywords kwargs → string_headers environ →
  kwargs !! "overwrite" = None →
  ∃ new,
    from_environ environ kwargs t w = Ok new ∧
    get_current t new.2 = VCtx new.1 ∧
    (∀ t', t' ≠ t → get_current t' new.2 = get_current t' w) ∧
    (∀ r ctx, heap w !! r = Some ctx → heap new.2 !! r = Some ctx).
Proof.
  intros Hv Hs Hnone.
  destruct (from_environ_call environ kwargs t w Hv Hs)
    as (kw & Hcall & Hkw & _ & _).
  assert (Ho : arg_overwrite (bound_arguments kw) = VBool true).
  { simpl. unfold get. by rewrite Hkw, Hnone. }
  eexists. split; [exact Hcall|]. split_and!.
  - rewrite RequestContext_init_current. by rewrite Ho.
  - intros t' Hne. by apply RequestContext_init_other_thread.
  - intros r ctx Hr. rewrite RequestContext_init_heap.
    rewrite lookup_app_l; [done|]. by apply lookup_lt_Some in Hr.
Qed.

(** ** The pieces of a roles header *)

Lemma split_length sep s : length (split sep s) = S (count_char sep s).
Proof.
  induction s as [|c s IH]; simpl; [done|].
  destruct (Ascii.eqb c sep); simpl; [by rewrite IH|].
  destruct (split sep s); simpl in *; lia.
Qed.

Lemma split_no_separator sep s :
  Forall (λ p, count_char sep p = 0) (split sep s).
Proof.
  induction s as [|c s IH]; simpl; [by repeat constructor|].
  destruct (Ascii.eqb c sep) eqn:E; [by constructor|].
  destruct (split sep s) as [|p ps]; simpl.
  - repeat constructor. simpl. by rewrite E.
  - apply Forall_cons in IH as [Hp Hps]. constructor; [|done].
    simpl. by rewrite E.
Qed.

Lemma count_char_lstrip c s :
  (count_char c (lstrip s) ≤ count_char c s)%nat.
Proof.
  induction s as [|c' s IH]; simpl; [done|].
  destruct (isspace c'); simpl; lia.
Qed.

Lemma count_char_rstrip c s :
  (count_char c (rstrip s) ≤ count_char c s)%nat.
Proof.
  induction s as [|c' s IH]; simpl; [done|].
  destruct (rstrip s) as [|c'' r]; simpl in *.
  - destruct (isspace c'); simpl; lia.
  - lia.
Qed.

Lemma begins_with_space_lstrip s : begins_with_space (lstrip s) = false.
Proof.
  induction s as [|c s IH]; simpl; [done|].
  by destruct (isspace c) eqn:E; simpl.
Qed.

Lemma begins_with_space_rstrip s :
  begins_with_space s = false → begins_with_space (rstrip s) = false.
Proof.
  destruct s as [|c s]; simpl; [done|]. intros Hc.
  destruct (rstrip s); simpl; [|done]. by rewrite Hc.
Qed.

Lemma ends_with_space_rstrip s : ends_with_space (rstrip s) = false.
Proof.
  induction s as [|c s IH]; simpl; [done|].
  destruct (rstrip s) as [|c' r]; [|exact IH].
  by destruct (isspace c) eqn:E; simpl.
Qed.

Lemma strip_piece p :
  count_char "," p = 0 →
  count_char "," (strip p) = 0 ∧
  begins_with_space (strip p) = false ∧
  ends_with_space (strip p) = false.
Proof.
  intros Hp. unfold strip. split_and!.
  - pose proof (count_char_rstrip "," (lstrip p)).
    pose proof (count_char_lstrip "," p). lia.
  - apply begins_with_space_rstrip, begins_with_space_lstrip.
  - apply ends_with_space_rstrip.
Qed.

(** X18: a roles header that is not empty gives exactly one role more than
    it has commas, so empty pieces are kept; no role contains a comma,
    begins with whitespace or ends with it. *)
Theorem from_environ_roles_shape environ kwargs t w s :
  valid_keywords kwargs → string_headers environ →
  kwargs !! "roles" = None →
  roles_header environ = Some (VStr s) → s ≠ "" →
  ∃ new ctx pieces,
    from_environ environ kwargs t w = Ok new ∧
    heap new.2 !! new.1 = Some ctx ∧
    roles ctx = VList (VStr <$> pieces) ∧
    length pieces = S (count_char "," s) ∧
    Forall (λ p, count_char "," p = 0 ∧
                 begins_with_space p = false ∧
                 ends_with_space p = false) pieces.
Proof.
  intros Hv Hs Hnone Hhdr Hne.
  destruct (from_environ_call environ kwargs t w Hv Hs)
    as (kw & Hcall & _ & Hkw & _).
  exists (RequestContext_init (bound_arguments kw) t w).
  eexists. exists (strip <$> split "," s).
  split; [exact Hcall|]. split; [apply RequestContext_init_lookup|].
  split_and!.
  - change (roles (set_attributes ?a ?r)) with (or_ (arg_roles a) (VList [])).
    simpl. unfold get. rewrite (Hkw Hnone). simpl.
    unfold environ_roles. rewrite Hhdr.
    destruct (String.eqb_spec s ""); [done|]. apply or_list.
  - by rewrite length_fmap, split_length.
  - apply Forall_fmap. eapply Forall_impl; [apply split_no_separator|].
    intros p Hp. by apply strip_piece.
Qed.

(** ** What the alternate constructors read *)

(** X19: when [values] has none of the eighteen keys, [from_dict(values)]
    does what [RequestContext()] does. *)
Theorem from_dict_no_entries values t w :
  (∀ k, k ∈ from_dict_defaults.*1 → values !! k = None) →
  from_dict values ∅ t w = Ok (RequestContext_init no_arguments t w).
Proof.
  intros Hnone.
  destruct (from_dict_call values ∅ t w) as (kw & Hcall & Hkw);
    [apply map_Forall_empty|].
  rewrite Hcall. do 2 f_equal.
  assert (Hget : ∀ k, get kw k (init_default k) = init_default k).
  { intros k. unfold get at 1. rewrite Hkw, lookup_empty.
    destruct (assoc k from_dict_defaults) as [d|] eqn:Hk; [|reflexivity].
    simpl. unfold get. rewrite Hnone by (apply assoc_elem; congruence).
    simpl. revert Hk. unfold from_dict_defaults. simpl.
    repeat match goal with
           | |- context [String.eqb k ?x] =>
               destruct (String.eqb_spec k x) as [->|?];
                 [by intros [= <-]|]
           end.
    discriminate. }
  unfold no_arguments, bound_arguments. by rewrite !Hget.
Qed.

Lemma first_header_agree k v_list environ environ' kwargs :
  (∀ v, v ∈ v_list → environ !! v = environ' !! v) →
  first_header k v_list environ kwargs = first_header k v_list environ' kwargs.
Proof.
  induction v_list as [|v v_list IH]; intros Hagree; simpl; [done|].
  rewrite <- (Hagree v) by apply list_elem_of_here.
  destruct (environ !! v); [done|]. apply IH.
  intros v' Hv'. apply Hagree. by apply list_elem_of_further.
Qed.

Lemma add_headers_agree headers environ environ' kwargs :
  (∀ v, v ∈ headers ≫= snd → environ !! v = environ' !! v) →
  add_headers headers environ kwargs = add_headers headers environ' kwargs.
Proof.
  revert kwargs. induction headers as [|[k v_list] headers IH];
    intros kwargs Hagree; [done|].
  rewrite !add_headers_cons.
  rewrite (first_header_agree k v_list environ environ').
  - apply IH. intros v Hv. apply Hagree. simpl. apply elem_of_app. by right.
  - intros v Hv. apply Hagree. simpl. apply elem_of_app. by left.
Qed.

(** X20: [from_environ] reads the environment only under the headers of its
    table and the three keys for roles and the admin-project flag: two
    environments that agree on them give the same result. *)
Theorem from_environ_ignores_other_keys environ environ' kwargs t w :
  (∀ k, k ∈ environ_keys → environ !! k = environ' !! k) →
  from_environ environ kwargs t w = from_environ environ' kwargs t w.
Proof.
  intros Hagree. unfold from_environ.
  rewrite (add_headers_agree _ environ environ')
    by (intros v Hv; apply Hagree; unfold environ_keys;
        apply elem_of_app; by left).
  assert (Hget : ∀ k d, k ∈ ["HTTP_X_ROLES"; "HTTP_X_ROLE";
                             "HTTP_X_IS_ADMIN_PROJECT"] →
                        get environ k d = get environ' k d).
  { intros k d Hk. unfold get. rewrite (Hagree k); [done|].
    unfold environ_keys. apply elem_of_app. by right. }
  unfold add_roles, add_is_admin_project.
  rewrite (Hget "HTTP_X_ROLE") by (repeat constructor).
  rewrite (Hget "HTTP_X_ROLES") by (repeat constructor).
  rewrite (Hget "HTTP_X_IS_ADMIN_PROJECT") by (repeat constructor).
  reflexivity.
Qed.

End Context.

(** ** The statements at concrete inputs *)

Lemma valid_keywords_empty : valid_keywords ∅.
Proof. apply map_Forall_empty. Qed.

Lemma store_allocated_empty : store_allocated empty_world.
Proof.
  intros t r H. change ((∅ : gmap thread ref) !! t = Some r) in H.
  rewrite lookup_empty in H. discriminate H.
Defined.

(** A subclass whose [to_dict] has a [user_name] entry: the entry is what
    [get_logging_values] returns under [user_name], not the display name. *)
Lemma legacy_user_name_shadows :
  ∃ d m,
    to_dict_legacy_user_name str_example alice = Ok d ∧
    get_logging_values (to_dict_legacy_user_name str_example) alice = Ok m ∧
    "user_name" ∈ dom d ∧
    display_name alice "user_name" = Some (VStr "alice") ∧
    m !! "user_name" = Some (VStr "u-123").
Proof.
  eexists _, _. split; [reflexivity|]. split; [reflexivity|].
  split; [|split; [reflexivity|by vm_compute]].
  apply elem_of_dom. exists (VStr "u-123"). by vm_compute.
Qed.

(** C1 as stated fails: for that subclass the display name does not take
    precedence on the coinciding key [user_name]. *)
Lemma display_names_do_not_take_precedence :
  ¬ display_names_take_precedence (to_dict_legacy_user_name str_example) alice.
Proof.
  intros H.
  destruct legacy_user_name_shadows as (d & m & Hd & Hm & Hin & Hname & Hlook).
  specialize (H d m "user_name" (VStr "alice") Hd Hm Hname Hin).
  rewrite Hlook in H. discriminate H.
Qed.

Lemma get_logging_values_update_witness :
  ∃ m,
    get_logging_values (to_dict str_example) alice = Ok m ∧
    m !! "user_name" = Some (VStr "alice") ∧
    m !! "user" = Some (VStr "u-123").
Proof.
  destruct (get_logging_values_update (to_dict str_example) alice _
              (to_dict_eq str_example alice))
    as (m & Hm & _ & Hd & Hn).
  exists m. split; [exact Hm|]. split.
  - rewrite Hn; [reflexivity|]. rewrite lookup_mkdict. reflexivity.
  - apply Hd. rewrite lookup_mkdict. reflexivity.
Defined.

Lemma init_publishes_iff_witness :
  get_current 0
    (get_admin_context uuid_example (VBool false) 0
       (RequestContext_init uuid_example no_arguments 0 empty_world).2).2 =
    VCtx 0 ∧
  get_current 0 (get_admin_context uuid_example (VBool false) 0 empty_world).2 =
    VCtx (get_admin_context uuid_example (VBool false) 0 empty_world).1.
Proof.
  split.
  - pose proof (init_publishes_iff uuid_example no_arguments 0
                  (RequestContext_init uuid_example no_arguments 0
                     empty_world).2
                  (RequestContext_init_allocated uuid_example no_arguments 0
                     empty_world store_allocated_empty))
      as (_ & _ & _ & Hkeep & _).
    apply (Hkeep (VBool false) 0). reflexivity.
  - pose proof (init_publishes_iff uuid_example no_arguments 0 empty_world
                  store_allocated_empty) as (_ & _ & _ & _ & Hnew).
    apply (Hnew (VBool false)). reflexivity.
Defined.

Lemma from_environ_tenant_witness :
  (∃ new ctx,
     from_environ uuid_example environ_legacy_tenant ∅ 0 empty_world = Ok new ∧
     heap new.2 !! new.1 = Some ctx ∧
     tenant ctx = VStr "t-legacy") ∧
  (∃ new ctx,
     from_environ uuid_example environ_project_and_tenant ∅ 0 empty_world =
       Ok new ∧
     heap new.2 !! new.1 = Some ctx ∧
     tenant ctx = VStr "p-1").
Proof.
  split.
  - destruct (from_environ_tenant uuid_example environ_legacy_tenant ∅ 0
                empty_world)
      as (new & ctx & Hcall & Hheap & _ & Honly & _);
      [apply valid_keywords_empty|by vm_compute|reflexivity|].
    exists new, ctx. split; [exact Hcall|]. split; [exact Hheap|].
    apply Honly; reflexivity.
  - destruct (from_environ_tenant uuid_example environ_project_and_tenant ∅ 0
                empty_world)
      as (new & ctx & Hcall & Hheap & _ & _ & Hboth);
      [apply valid_keywords_empty|by vm_compute|reflexivity|].
    exists new, ctx. split; [exact Hcall|]. split; [exact Hheap|].
    apply (Hboth _ (VStr "t-legacy")); reflexivity.
Defined.

(** C4 as stated fails: an empty [HTTP_X_ROLES] is found, and splitting it
    on commas gives one empty piece, but the context has no roles. *)
Lemma from_environ_empty_roles_header :
  ∃ new ctx,
    from_environ uuid_example environ_empty_roles ∅ 0 empty_world = Ok new ∧
    heap new.2 !! new.1 = Some ctx ∧
    roles_header environ_empty_roles = Some (VStr "") ∧
    VStr <$> (strip <$> split "," "") = [VStr ""] ∧
    roles ctx = VList [] ∧
    roles ctx ≠ VList (VStr <$> (strip <$> split "," "")).
Proof.
  eexists _, _. split; [by vm_compute|]. split; [reflexivity|].
  split; [reflexivity|]. split; [reflexivity|]. split; [reflexivity|].
  discriminate.
Qed.

Lemma from_environ_roles_witness :
  ∃ new ctx,
    from_environ uuid_example environ_three_roles ∅ 0 empty_world = Ok new ∧
    heap new.2 !! new.1 = Some ctx ∧
    roles ctx = VList [VStr "admin"; VStr "member"; VStr "ops"].
Proof.
  destruct (from_environ_roles uuid_example environ_three_roles ∅ 0 empty_world)
    as (new & ctx & Hcall & Hheap & _ & _ & _ & Hthree);
    [apply valid_keywords_empty|by vm_compute|reflexivity|].
  exists new, ctx. split; [exact Hcall|]. split; [exact Hheap|].
  apply Hthree. reflexivity.
Defined.

Lemma from_environ_is_admin_project_witness :
  ∃ new ctx,
    from_environ uuid_example environ_flag_yes ∅ 0 empty_world = Ok new ∧
    heap new.2 !! new.1 = Some ctx ∧
    is_admin_project ctx = VBool false.
Proof.
  destruct (from_environ_is_admin_project uuid_example environ_flag_yes ∅ 0
              empty_world)
    as (new & ctx & Hcall & Hheap & _ & Hflag);
    [apply valid_keywords_empty|by vm_compute|reflexivity|].
  exists new, ctx. split; [exact Hcall|]. split; [exact Hheap|].
  apply (Hflag "yes"); [reflexivity|discriminate].
Defined.

Lemma request_id_after_init_witness :
  ∃ ctx s,
    heap (RequestContext_init uuid_example empty_request_id 0 empty_world).2
      !! (RequestContext_init uuid_example empty_request_id 0 empty_world).1 =
      Some ctx ∧
    request_id ctx = VStr s ∧ s ≠ "" ∧ String.prefix "req-" s = true.
Proof.
  destruct (request_id_after_init uuid_example empty_request_id 0 empty_world)
    as (ctx & Hheap & _ & _ & _ & Hgen).
  destruct Hgen as (s & Hs); [right; reflexivity|].
  exists ctx, s. split; [exact Hheap|exact Hs].
Defined.

Lemma to_dict_user_identity_witness :
  identity_part str_example (VStr "u-123") = "u-123".
Proof.
  destruct (to_dict_user_identity str_example uuid_example)
    as (_ & _ & Hstr & _).
  apply Hstr. discriminate.
Defined.

Lemma to_dict_empty_string_identity_witness :
  ∃ d,
    to_dict str_example alice_blank_tenant = Ok d ∧
    d !! "user_identity" = Some (VStr "u-123 - - - -") ∧
    d !! "tenant" = Some (VStr "").
Proof.
  destruct (to_dict_empty_string_identity str_example alice_blank_tenant 1
              eq_refl)
    as (d & k & Hd & Hidt & _ & _ & Hk & Hown).
  exists d. split; [exact Hd|]. split; [exact Hidt|].
  injection Hk as <-. exact Hown.
Defined.

(** ** Further statements at concrete inputs *)

Lemma valid_keywords_user : valid_keywords kwargs_user.
Proof. by apply (bool_decide_unpack _); vm_compute. Defined.

Lemma from_dict_layers_witness :
  ∃ new ctx,
    from_dict uuid_example values_admin kwargs_user 0 empty_world = Ok new ∧
    heap new.2 !! new.1 = Some ctx ∧
    attribute "user" ctx = Some (VStr "u-456").
Proof.
  destruct (from_dict_layers uuid_example values_admin kwargs_user 0
              empty_world "user")
    as (new & ctx & Hcall & Hheap & Hattr);
    [apply valid_keywords_user|repeat constructor|].
  exists new, ctx. split; [exact Hcall|]. split; [exact Hheap|exact Hattr].
Defined.

Lemma from_dict_unknown_keyword_witness :
  from_dict uuid_example values_admin kwargs_colour 0 empty_world =
  Raise TypeError.
Proof.
  apply (from_dict_unknown_keyword uuid_example values_admin kwargs_colour 0
           empty_world "colour" (VStr "red")); [reflexivity|].
  by apply (bool_decide_unpack _); vm_compute.
Defined.

Lemma from_dict_ignores_other_keys_witness :
  from_dict uuid_example values_admin ∅ 0 empty_world =
  from_dict uuid_example (<["colour" := VStr "red"]> values_admin) ∅ 0
    empty_world.
Proof.
  apply from_dict_ignores_other_keys. intros k Hk. simpl in Hk.
  repeat (apply elem_of_cons in Hk as [->|Hk]; [reflexivity|]).
  by apply elem_of_nil in Hk.
Defined.

Lemma from_dict_no_entries_witness :
  from_dict uuid_example values_colour ∅ 0 empty_world =
  Ok (RequestContext_init uuid_example no_arguments 0 empty_world).
Proof.
  apply from_dict_no_entries. intros k Hk. simpl in Hk.
  repeat (apply elem_of_cons in Hk as [->|Hk]; [reflexivity|]).
  by apply elem_of_nil in Hk.
Defined.

Lemma get_logging_values_attributes_witness :
  ∃ m,
    get_logging_values (to_dict str_example) alice = Ok m ∧
    m !! "user_name" = Some (VStr "alice").
Proof.
  destruct (get_logging_values_attributes str_example alice)
    as (m & Hm & Hattr & _).
  exists m. split; [exact Hm|]. apply Hattr. reflexivity.
Defined.

Lemma roles_never_none_witness :
  ∃ ctx,
    heap (RequestContext_init uuid_example no_arguments 0 empty_world).2
      !! (RequestContext_init uuid_example no_arguments 0 empty_world).1 =
      Some ctx ∧
    roles ctx = VList [].
Proof.
  destruct (roles_never_none uuid_example no_arguments 0 empty_world)
    as (ctx & Hheap & _ & _ & Hempty).
  exists ctx. split; [exact Hheap|]. apply Hempty. reflexivity.
Defined.

Lemma fresh_request_ids_witness :
  ∃ ctx1 ctx2,
    heap (RequestContext_init uuid_example no_arguments 0 empty_world).2
      !! 0 = Some ctx1 ∧
    heap (RequestContext_init uuid_example no_arguments 0
            (RequestContext_init uuid_example no_arguments 0 empty_world).2).2
      !! 1 = Some ctx2 ∧
    request_id ctx1 ≠ request_id ctx2.
Proof.
  destruct (fresh_request_ids uuid_example no_arguments no_arguments 0 0
              empty_world)
    as (ctx1 & ctx2 & H1 & H2 & _ & _ & Hne);
    [reflexivity|reflexivity|by vm_compute|].
  exists ctx1, ctx2. split; [exact H1|]. split; [exact H2|exact Hne].
Defined.

Lemma init_preserves_instances_witness :
  ∃ ctx,
    heap (RequestContext_init uuid_example no_arguments 0 empty_world).2
      !! 0 = Some ctx ∧
    heap (RequestContext_init uuid_example empty_request_id 1
            (RequestContext_init uuid_example no_arguments 0 empty_world).2).2
      !! 0 = Some ctx.
Proof.
  eexists. split; [reflexivity|].
  apply (init_preserves_instances uuid_example empty_request_id 1
           (RequestContext_init uuid_example no_arguments 0 empty_world).2).
  reflexivity.
Defined.

Lemma is_user_context_of_new_witness :
  is_user_context VNone empty_world = Some false.
Proof.
  apply (is_user_context_of_new uuid_example no_arguments 0 empty_world).
  reflexivity.
Defined.

Lemma from_environ_attribute_witness :
  ∃ new ctx,
    from_environ uuid_example environ_tenant_name ∅ 0 empty_world = Ok new ∧
    heap new.2 !! new.1 = Some ctx ∧
    attribute "project_name" ctx = Some (VStr "demo").
Proof.
  destruct (from_environ_attribute uuid_example environ_tenant_name ∅ 0
              empty_world "project_name")
    as (new & ctx & Hcall & Hheap & Hattr);
    [apply valid_keywords_empty|by vm_compute|repeat constructor
    |discriminate|].
  exists new, ctx. split; [exact Hcall|]. split; [exact Hheap|exact Hattr].
Defined.

Lemma from_environ_request_id_witness :
  ∃ new ctx,
    from_environ uuid_example environ_request_id ∅ 0 empty_world = Ok new ∧
    heap new.2 !! new.1 = Some ctx ∧
    request_id ctx = VStr "req-abc".
Proof.
  destruct (from_environ_request_id uuid_example environ_request_id ∅ 0
              empty_world)
    as (new & ctx & Hcall & Hheap & Hkeep & _);
    [apply valid_keywords_empty|by vm_compute|reflexivity|].
  exists new, ctx. split; [exact Hcall|]. split; [exact Hheap|].
  apply Hkeep; reflexivity.
Defined.

Lemma from_environ_publishes_witness :
  ∃ new,
    from_environ uuid_example environ_tenant_name ∅ 0 empty_world = Ok new ∧
    get_current 0 new.2 = VCtx new.1.
Proof.
  destruct (from_environ_publishes uuid_example environ_tenant_name ∅ 0
              empty_world)
    as (new & Hcall & Hcur & _);
    [apply valid_keywords_empty|by vm_compute|reflexivity|].
  exists new. split; [exact Hcall|exact Hcur].
Defined.

Lemma valid_keywords_roles_flag : valid_keywords kwargs_roles_flag.
Proof. by apply (bool_decide_unpack _); vm_compute. Defined.

Lemma from_environ_overrides_skip_headers_witness :
  ∃ new ctx,
    from_environ uuid_example environ_roles_list kwargs_roles_flag 0
      empty_world = Ok new ∧
    heap new.2 !! new.1 = Some ctx ∧
    roles ctx = VList [VStr "admin"] ∧
    is_admin_project ctx = VBool false.
Proof.
  destruct (from_environ_overrides_skip_headers uuid_example
              environ_roles_list kwargs_roles_flag 0 empty_world
              (VList [VStr "admin"]) (VBool false))
    as (new & ctx & Hcall & Hheap & Hroles & Hflag);
    [apply valid_keywords_roles_flag|reflexivity|reflexivity|].
  exists new, ctx. split; [exact Hcall|]. split; [exact Hheap|].
  split; [exact Hroles|exact Hflag].
Defined.

Lemma from_environ_unknown_keyword_witness :
  from_environ uuid_example environ_tenant_name kwargs_colour 0 empty_world =
  Raise TypeError.
Proof.
  apply (from_environ_unknown_keyword uuid_example environ_tenant_name
           kwargs_colour 0 empty_world "colour" (VStr "red"));
    [by vm_compute|reflexivity|].
  by apply (bool_decide_unpack _); vm_compute.
Defined.

Lemma from_environ_roles_not_string_witness :
  from_environ uuid_example environ_roles_list ∅ 0 empty_world =
  Raise AttributeError.
Proof.
  apply (from_environ_roles_not_string uuid_example environ_roles_list ∅ 0
           empty_world (VList [VStr "admin"]));
    [reflexivity|reflexivity|reflexivity|discriminate].
Defined.


Lemma from_environ_roles_shape_witness :
  ∃ new ctx pieces,
    from_environ uuid_example environ_trailing_comma ∅ 0 empty_world =
      Ok new ∧
    heap new.2 !! new.1 = Some ctx ∧
    roles ctx = VList (VStr <$> pieces) ∧
    length pieces = 4.
Proof.
  destruct (from_environ_roles_shape uuid_example environ_trailing_comma ∅ 0
              empty_world "admin, ,ops,")
    as (new & ctx & pieces & Hcall & Hheap & Hroles & Hlen & _);
    [apply valid_keywords_empty|by vm_compute|reflexivity|reflexivity
    |discriminate|].
  exists new, ctx, pieces. split; [exact Hcall|]. split; [exact Hheap|].
  split; [exact Hroles|exact Hlen].
Defined.

Lemma from_environ_ignores_other_keys_witness :
  from_environ uuid_example environ_three_roles ∅ 0 empty_world =
  from_environ uuid_example environ_with_scheme ∅ 0 empty_world.
Proof.
  apply from_environ_ignores_other_keys. intros k Hk.
  unfold environ_keys in Hk. simpl in Hk.
  repeat (apply elem_of_cons in Hk as [->|Hk]; [reflexivity|]).
  by apply elem_of_nil in Hk.
Defined.

(** The whitespace that is not ASCII is trimmed from a role as well. *)
Lemma from_environ_roles_separators :
  ∃ new ctx,
    from_environ uuid_example environ_roles_separators ∅ 0 empty_world =
      Ok new ∧
    heap new.2 !! new.1 = Some ctx ∧
    roles ctx = VList [VStr "admin"; VStr "ops"].
Proof. eexists _, _. split; [by vm_compute|]. split; reflexivity. Qed.

(** Folding the case of letters that are not ASCII does not make a flag
    true. *)
Lemma lower_latin_capital :
  lower (String "192" "TRUE") = String "224" "true" ∧
  lower "TRUE" = "true" ∧
  lower (String "215" "") = String "215" "".
Proof. by vm_compute. Qed.
